(** * Retail forecasting service: data processing and API endpoints

    A shallow embedding of [src/data_processing.py] (load_data,
    aggregate_sales, create_features_for_ml) and of the endpoints of
    [api_service.py], with the properties of the specification proved
    about them.

    Conventions.
    - A pandas [Timestamp] is a calendar date (year, month, day); the
      dataset holds dates at midnight, and month-end resampling works at
      day resolution.
    - Amounts are integers, in minor currency units.  A [float64] cell of
      a series or feature column is [option Z]: [Some v] is the amount
      [v], [None] is NaN.
    - The transaction table is a list of rows with the columns
      Order_Date, Sales, Category and Region; a time series is a list of
      (index, value) pairs in storage order.
    - A request handler yields the calls it made into the data and model
      modules, in order, and its outcome: a returned body or an
      HTTPException. *)

From Stdlib Require Import ZArith QArith Qabs String Ascii Lia.
From stdpp Require Import base option list list_numbers sorting strings gmap.

Local Open Scope string_scope.
Local Open Scope list_scope.
Local Open Scope Z_scope.

(** ** Calendar dates *)

Record Timestamp : Type := mkTimestamp { ts_year : Z; ts_month : Z; ts_day : Z }.

Global Instance Timestamp_eq_dec : EqDecision Timestamp.
Proof. solve_decision. Defined.

Definition is_leap_year (y : Z) : bool :=
  ((y mod 4 =? 0) && negb (y mod 100 =? 0)) || (y mod 400 =? 0).

Definition days_in_month (y m : Z) : Z :=
  if m =? 2 then (if is_leap_year y then 29 else 28)
  else if (m =? 4) || (m =? 6) || (m =? 9) || (m =? 11) then 30
  else 31.

(** Chronological order on dates: lexicographic on (year, month, day). *)
Definition ts_ltb (a b : Timestamp) : bool :=
  (ts_year a <? ts_year b)
  || ((ts_year a =? ts_year b)
      && ((ts_month a <? ts_month b)
          || ((ts_month a =? ts_month b) && (ts_day a <? ts_day b)))).

Definition ts_leb (a b : Timestamp) : bool := negb (ts_ltb b a).

Definition ts_lt (a b : Timestamp) : Prop := ts_ltb a b = true.
Definition ts_le (a b : Timestamp) : Prop := ts_leb a b = true.

(** A date of the calendar, and one within the years a pandas
    [Timestamp] can hold. *)
Definition calendar_date (t : Timestamp) : Prop :=
  1 <= ts_month t <= 12 ∧ 1 <= ts_day t <= days_in_month (ts_year t) (ts_month t).

Definition valid_timestamp (t : Timestamp) : Prop :=
  1677 <= ts_year t <= 2262 ∧ calendar_date t.

Global Instance calendar_date_dec t : Decision (calendar_date t).
Proof. unfold calendar_date. apply _. Defined.

Global Instance valid_timestamp_dec t : Decision (valid_timestamp t).
Proof. unfold valid_timestamp. apply _. Defined.

(** Months counted from year 0: the position of a date's month on the
    monthly axis, and the month-end date labelling that position. *)
Definition month_ord (t : Timestamp) : Z := ts_year t * 12 + (ts_month t - 1).

Definition MonthEnd (k : Z) : Timestamp :=
  {| ts_year := k / 12; ts_month := k mod 12 + 1;
     ts_day := days_in_month (k / 12) (k mod 12 + 1) |}.

Definition same_month (a b : Timestamp) : Prop :=
  ts_year a = ts_year b /\ ts_month a = ts_month b.

Definition ts_min (a b : Timestamp) : Timestamp := if ts_ltb b a then b else a.
Definition ts_max (a b : Timestamp) : Timestamp := if ts_ltb a b then b else a.

(** [Index.min()] and [Index.max()]; [None] stands for NaT on an empty index. *)
Definition index_min (idx : list Timestamp) : option Timestamp :=
  match idx with
  | [] => None
  | t :: rest => Some (foldr ts_min t rest)
  end.

Definition index_max (idx : list Timestamp) : option Timestamp :=
  match idx with
  | [] => None
  | t :: rest => Some (foldr ts_max t rest)
  end.

(** ** The transaction table and time series *)

Abbreviation cell := (option Z).
Abbreviation NaN := (@None Z).

Record Row : Type := mkRow {
  Order_Date : Timestamp;
  Sales : Z;
  Category : string;
  Region : string
}.

Global Instance Row_eq_dec : EqDecision Row.
Proof. solve_decision. Defined.

Abbreviation DataFrame := (list Row).
Abbreviation Series := (list (Timestamp * cell)).

Definition empty_series : Series := [].

(** ** load_data *)

Inductive exception : Type :=
  | FileNotFoundError (msg : string)
  | OtherException (msg : string).

(** A date cell of the sheet: a value [pd.to_datetime] accepts, or one on
    which it raises with the given message. *)
Inductive date_cell : Type :=
  | DateValue (t : Timestamp)
  | DateInvalid (msg : string).

Record ExcelRow : Type := mkExcelRow {
  xl_date : date_cell;
  xl_sales : Z;
  xl_category : string;
  xl_region : string
}.

(** What [pd.read_excel] hands back: the header line as written in the
    file, and the records under the date, sales, category and region
    headers. *)
Record ExcelSheet : Type := mkExcelSheet {
  xl_columns : list string;
  xl_rows : list ExcelRow
}.

Inductive read_excel_result : Type :=
  | ReadRaises (e : exception)
  | ReadOk (sheet : ExcelSheet).

(** [str.replace(old, new)] for one-character patterns. *)
Fixpoint str_replace (old new : ascii) (s : string) : string :=
  match s with
  | EmptyString => EmptyString
  | String c s' => String (if decide (c = old) then new else c) (str_replace old new s')
  end.

Definition normalize_columns (cols : list string) : list string :=
  str_replace "-" "_" <$> (str_replace " " "_" <$> cols).

(** [pd.to_datetime] over the date column: the first invalid cell raises. *)
Fixpoint to_datetime (rows : list ExcelRow) : exception + DataFrame :=
  match rows with
  | [] => inr []
  | r :: rest =>
      match xl_date r with
      | DateInvalid msg => inl (OtherException msg)
      | DateValue t =>
          match to_datetime rest with
          | inl e => inl e
          | inr df => inr (mkRow t (xl_sales r) (xl_category r) (xl_region r) :: df)
          end
      end
  end.

(** The body of the [try] block, lines 13-17. *)
Definition load_data_body (read : read_excel_result) : exception + DataFrame :=
  match read with
  | ReadRaises e => inl e
  | ReadOk sheet =>
      if decide ("Order_Date" ∈ normalize_columns (xl_columns sheet))
      then to_datetime (xl_rows sheet)
      else inl (OtherException "'Order_Date'")
  end.

Definition load_data (FILE_NAME : string) (read : read_excel_result)
  : option DataFrame * string :=
  match load_data_body read with
  | inr df => (Some df, "Success")
  | inl (FileNotFoundError _) =>
      (None, "Error: Archivo no encontrado en: " +:+ FILE_NAME)
  | inl (OtherException e) => (None, "Error al cargar datos: " +:+ e)
  end.

(** ** aggregate_sales *)

(** Lines 28-33: the two conditional boolean-mask selections. *)
Definition filter_category (category : string) (df : DataFrame) : DataFrame :=
  if decide (category ≠ "All Categories")
  then filter (λ r, Category r = category) df
  else df.

Definition filter_region (region : string) (df : DataFrame) : DataFrame :=
  if decide (region ≠ "All Regions")
  then filter (λ r, Region r = region) df
  else df.

Definition df_filtered (df : DataFrame) (category region : string) : DataFrame :=
  filter_region region (filter_category category df).

(** [df.set_index('Order_Date')['Sales']] *)
Definition sales_by_date (df : DataFrame) : list (Timestamp * Z) :=
  (λ r, (Order_Date r, Sales r)) <$> df.

(** Month-end resampling.  The bins are right-closed and right-labelled:
    the bin labelled [MonthEnd k] holds the dates in
    (MonthEnd (k-1), MonthEnd k].  The grid runs from the bin of the
    smallest index value to the bin of the largest, and an empty bin sums
    to 0. *)
Definition in_bin (k : Z) (t : Timestamp) : bool :=
  ts_ltb (MonthEnd (k - 1)) t && ts_leb t (MonthEnd k).

Definition sum_Z (l : list Z) : Z := foldr Z.add 0 l.

Definition bin_sum (k : Z) (s : list (Timestamp * Z)) : Z :=
  sum_Z ((filter (λ e, in_bin k e.1 = true) s).*2).

Definition resample_ME_sum (s : list (Timestamp * Z)) : Series :=
  match index_min s.*1, index_max s.*1 with
  | Some first, Some last =>
      (λ k, (MonthEnd k, Some (bin_sum k s)))
        <$> seqZ (month_ord first) (month_ord last - month_ord first + 1)
  | _, _ => []
  end.

(** [searchsorted(label, side='left')] on a monotonic increasing index:
    the number of leading entries strictly below the label. *)
Fixpoint searchsorted_left (idx : list Timestamp) (label : Timestamp) : nat :=
  match idx with
  | [] => O
  | t :: rest => if ts_ltb t label then S (searchsorted_left rest label) else O
  end.

(** The label slice [s[start:]]. *)
Definition slice_from (start : option Timestamp) (s : Series) : Series :=
  match start with
  | Some label => drop (searchsorted_left s.*1 label) s
  | None => s
  end.

Definition aggregate_sales (df : option DataFrame) (category region : string)
  : Series * bool :=
  match df with
  | None => (empty_series, false)
  | Some df =>
      let df_filtered := df_filtered df category region in
      if decide (df_filtered = []) then (empty_series, false)
      else
        let ts_monthly := resample_ME_sum (sales_by_date df_filtered) in
        let ts_monthly := slice_from (index_min ts_monthly.*1) ts_monthly in
        (ts_monthly, true)
  end.

(** The same function without line 40: the plain month-end resample and
    sum, returned as it is. *)
Definition aggregate_sales_unsliced (df : option DataFrame) (category region : string)
  : Series * bool :=
  match df with
  | None => (empty_series, false)
  | Some df =>
      let df_filtered := df_filtered df category region in
      if decide (df_filtered = []) then (empty_series, false)
      else (resample_ME_sum (sales_by_date df_filtered), true)
  end.

(** The row condition of the specification. *)
Definition selected (category region : string) (r : Row) : Prop :=
  (category = "All Categories" ∨ Category r = category)
  ∧ (region = "All Regions" ∨ Region r = region).

Global Instance selected_dec category region r : Decision (selected category region r).
Proof. unfold selected. apply _. Defined.

Global Instance same_month_dec a b : Decision (same_month a b).
Proof. unfold same_month. apply _. Defined.

(** ** create_features_for_ml *)

(** [Series.shift(n)]: the values move [n] places down, NaN enters at the
    top, the length is kept. *)
Definition shift (n : nat) (col : list cell) : list cell :=
  take (length col) (replicate n NaN ++ col).

(** [bfill]: a missing cell takes the next value below it that is present,
    and stays missing when there is none. *)
Fixpoint bfill (col : list cell) : list cell :=
  match col with
  | [] => []
  | c :: rest =>
      let rest' := bfill rest in
      match c with
      | Some v => Some v :: rest'
      | None => default NaN (head rest') :: rest'
      end
  end.

(** The feature table [X], column by column; the calendar columns are
    integer columns, which hold no NaN and are left alone by [bfill]. *)
Record Features : Type := mkFeatures {
  X_index : list Timestamp;
  month : list Z;
  year : list Z;
  quarter : list Z;
  lag_12 : list cell
}.

Definition quarter_of (t : Timestamp) : Z := (ts_month t - 1) / 3 + 1.

Definition create_features_for_ml (ts_data : Series) : Features * list cell :=
  let index := ts_data.*1 in
  let Sales := ts_data.*2 in
  let lag := shift 12 Sales in
  (* df = df.bfill() *)
  let Sales := bfill Sales in
  let lag := bfill lag in
  ({| X_index := index;
      month := ts_month <$> index;
      year := ts_year <$> index;
      quarter := quarter_of <$> index;
      lag_12 := lag |},
   Sales).

(** ** Date formatting *)

Definition digit_char (d : Z) : ascii := ascii_of_nat (48 + Z.to_nat d).

(** Decimal digits of a non-negative number, most significant first. *)
Fixpoint decimal_go (fuel : nat) (n : Z) (acc : string) : string :=
  match fuel with
  | O => acc
  | S fuel' =>
      let acc' := String (digit_char (n mod 10)) acc in
      if n / 10 =? 0 then acc' else decimal_go fuel' (n / 10) acc'
  end.

Definition decimal (n : Z) : string := decimal_go (S (Z.to_nat n)) n "".

(** Left padding with zeros up to a width, as [%m], [%d] and [%Y] do. *)
Definition zfill (width : nat) (s : string) : string :=
  string_of_list_ascii (replicate (width - String.length s)%nat "0"%char)
  +:+ s.

(** [strftime("%Y-%m-%d")] *)
Definition strftime_ymd (t : Timestamp) : string :=
  zfill 4 (decimal (ts_year t)) +:+ "-" +:+ zfill 2 (decimal (ts_month t))
  +:+ "-" +:+ zfill 2 (decimal (ts_day t)).

Definition is_digit (c : ascii) : bool :=
  (48 <=? nat_of_ascii c)%nat && (nat_of_ascii c <=? 57)%nat.

(** The shape YYYY-MM-DD: ten characters, digits except for the two dashes. *)
Definition is_ymd_string (s : string) : bool :=
  match list_ascii_of_string s with
  | [y1; y2; y3; y4; d1; m1; m2; d2; a1; a2] =>
      is_digit y1 && is_digit y2 && is_digit y3 && is_digit y4
      && bool_decide (d1 = "-"%char) && is_digit m1 && is_digit m2
      && bool_decide (d2 = "-"%char) && is_digit a1 && is_digit a2
  | _ => false
  end.

(** ** The API service *)

(** Values held in the flat dictionaries the endpoints exchange. *)
Inductive pyval : Type :=
  | PStr (s : string)
  | PNum (x : cell)
  | PList (l : list string).

Global Instance pyval_eq_dec : EqDecision pyval.
Proof. solve_decision. Defined.

Record ForecastRow : Type := mkForecastRow {
  Sales_Forecast : cell;
  Lower_Bound : cell;
  Upper_Bound : cell
}.

(** The frame a forecasting model returns, indexed by date. *)
Abbreviation ForecastFrame := (list (Timestamp * ForecastRow)).

Record ForecastRecord : Type := mkForecastRecord {
  Date : string;
  values : ForecastRow
}.

Record HistoryJson : Type := mkHistoryJson {
  history_index : list string;
  history_data : list cell
}.

Inductive json_body : Type :=
  | FlatDict (d : gmap string pyval)
  | ForecastDict (status model_used : string) (history : HistoryJson)
      (forecast : list ForecastRecord).

(** The two forecasting modules the service imports, [src.sarima_model]
    and [src.xgboost_model], as an interface. *)
Class Models : Type := {
  get_sarima_forecast : Series → Z → option ForecastFrame * string;
  get_xgboost_forecast : Series → Z → option ForecastFrame * string;
  run_backtest_sarima : Series → Z → gmap string pyval;
  run_backtest_xgboost : Series → Z → gmap string pyval
}.

(** A request handler finishes by returning a body or by raising an
    [HTTPException]; on the way it calls into the data-processing and
    model modules, and the calls are recorded in order. *)
Inductive call : Type :=
  | AggregateSales (category region : string)
  | SarimaForecast (steps : Z)
  | XgboostForecast (steps : Z)
  | BacktestSarima (test_months : Z)
  | BacktestXgboost (test_months : Z).

Inductive outcome (A : Type) : Type :=
  | Return (body : A)
  | HTTPException (status_code : Z) (detail : string).
Arguments Return {A} body.
Arguments HTTPException {A} status_code detail.

Definition handler (A : Type) : Type := list call * outcome A.

Global Instance handler_ret : MRet handler := λ A a, ([], Return a).

Global Instance handler_bind : MBind handler := λ A B f m,
  match m with
  | (calls, Return a) => let '(calls', o) := f a in (calls ++ calls', o)
  | (calls, HTTPException code detail) => (calls, HTTPException code detail)
  end.

Definition invoke {A} (c : call) (result : A) : handler A := ([c], Return result).
Definition raise {A} (status_code : Z) (detail : string) : handler A :=
  ([], HTTPException status_code detail).

Definition welcome : string :=
  "Welcome to the Retail Forecasting API. Access /docs for documentation.".

Definition unknown_model_detail : string := "model_type debe ser 'sarima' o 'xgboost'".

Definition no_data_body (category region : string) : json_body :=
  FlatDict {[ "status" := PStr "error";
              "message" := PStr ("No data found for " +:+ category +:+ "/" +:+ region +:+ ".") ]}.

Definition str_le (a b : string) : Prop := String.leb a b = true.

Global Instance str_le_dec a b : Decision (str_le a b).
Proof. unfold str_le. apply _. Defined.

(** [sorted(col.unique().tolist())] *)
Definition sorted_unique (col : list string) : list string :=
  merge_sort str_le (remove_dups col).

Definition CATEGORIES (df : DataFrame) : list string :=
  "All Categories" :: sorted_unique (Category <$> df).
Definition REGIONS (df : DataFrame) : list string :=
  "All Regions" :: sorted_unique (Region <$> df).

Section endpoints.
Context `{Models}.
(** The module-level state set at import time by [load_data()]. *)
Variable DF_RAW : option DataFrame.
Variable STATUS : string.

Definition read_root : handler json_body :=
  mret (FlatDict {[ "message" := PStr welcome ]}).

Definition get_filters : handler json_body :=
  match DF_RAW with
  | None => raise 500 ("Datos no cargados. Razón: " +:+ STATUS)
  | Some df =>
      mret (FlatDict {[ "categories" := PList (CATEGORIES df);
                        "regions" := PList (REGIONS df) ]})
  end.

(** The [print] of the date range, lines 67-68, writes to the server log
    and has no part in the response. *)
Definition sales_forecast_endpoint (model_type category region : string) (steps : Z)
  : handler json_body :=
  match DF_RAW with
  | None => raise 500 ("Error de carga de datos inicial: " +:+ STATUS)
  | Some _ =>
      '(ts_history, data_available) ←
        invoke (AggregateSales category region) (aggregate_sales DF_RAW category region);
      if negb data_available then mret (no_data_body category region)
      else
        '(forecast_df, status) ←
          (if decide (model_type = "sarima")
           then invoke (SarimaForecast steps) (get_sarima_forecast ts_history steps)
           else if decide (model_type = "xgboost")
           then invoke (XgboostForecast steps) (get_xgboost_forecast ts_history steps)
           else raise 400 unknown_model_detail);
        match forecast_df with
        | Some forecast_df =>
            if decide (status ≠ "Success")
            then raise 400 ("Error en el modelo " +:+ model_type +:+ ": " +:+ status)
            else
              let history_json :=
                {| history_index := strftime_ymd <$> ts_history.*1;
                   history_data := ts_history.*2 |} in
              let forecast_json :=
                (λ e, {| Date := strftime_ymd e.1; values := e.2 |}) <$> forecast_df in
              mret (ForecastDict "success" model_type history_json forecast_json)
        | None => raise 400 ("Error en el modelo " +:+ model_type +:+ ": " +:+ status)
        end
  end.

Definition sales_evaluation_endpoint (model_type category region : string)
  : handler json_body :=
  match DF_RAW with
  | None => raise 500 ("Error de carga de datos inicial: " +:+ STATUS)
  | Some _ =>
      '(ts_history, data_available) ←
        invoke (AggregateSales category region) (aggregate_sales DF_RAW category region);
      if negb data_available then mret (no_data_body category region)
      else
        metrics ←
          (if decide (model_type = "sarima")
           then invoke (BacktestSarima 12) (run_backtest_sarima ts_history 12)
           else if decide (model_type = "xgboost")
           then invoke (BacktestXgboost 12) (run_backtest_xgboost ts_history 12)
           else raise 400 unknown_model_detail);
        match metrics !! "status" with
        | None => raise 500 "Internal Server Error"   (* KeyError *)
        | Some status =>
            if decide (status ≠ PStr "Success")
            then match metrics !! "message" with
                 | Some (PStr message) => raise 400 message
                 | _ => raise 500 "Internal Server Error"
                 end
            else mret (FlatDict (<["model_used" := PStr model_type]> metrics))
        end
  end.
End endpoints.

(** ** Backtest metrics *)

Global Instance Qeq_decision (a b : Q) : Decision (a == b)%Q := Qeq_dec a b.

Definition Qsum (l : list Q) : Q := foldr Qplus 0%Q l.
Definition Qmean (l : list Q) : Q := (Qsum l / inject_Z (Z.of_nat (length l)))%Q.

(** Modelled from the spec: the MAPE of the backtest harness, computed in
    [src/sarima_model.py] and [src/xgboost_model.py], which are missing
    from the sources.  The mean of |actual_i - predicted_i| / actual_i,
    times 100, over the positions where actual_i is not zero; when every
    actual is zero there is no value (the status becomes an error). *)
Definition mape_terms (actual predicted : list Q) : list Q :=
  (λ ap, Qabs (ap.1 - ap.2) / ap.1)%Q
    <$> filter (λ ap, ¬ (ap.1 == 0)%Q) (zip actual predicted).

Definition mape (actual predicted : list Q) : option Q :=
  let terms := mape_terms actual predicted in
  if decide (terms = []) then None else Some (Qmean terms * 100)%Q.

(** ** Reference data and models

    A small table and the simplest pair of models (the persistence
    forecast: the last value, repeated), on which the endpoints can be
    run. *)

Definition example_df : DataFrame :=
  [ mkRow (mkTimestamp 2020 3 15) 100 "Furniture" "West";
    mkRow (mkTimestamp 2020 1 31) 50 "Technology" "East";
    mkRow (mkTimestamp 2020 3 1) 7 "Furniture" "East";
    mkRow (mkTimestamp 2019 12 31) 5 "Furniture" "West" ].

Definition persistence_forecast (ts : Series) (steps : Z)
  : option ForecastFrame * string :=
  match last ts with
  | None => (None, "insufficient data")
  | Some (t, v) =>
      (Some ((λ k, (MonthEnd k, mkForecastRow v NaN NaN))
               <$> seqZ (month_ord t + 1) steps),
       "Success")
  end.

Definition persistence_backtest (ts : Series) (test_months : Z) : gmap string pyval :=
  if Z.of_nat (length ts) <=? test_months
  then {[ "status" := PStr "Error"; "message" := PStr "insufficient data" ]}
  else {[ "status" := PStr "Success"; "mape" := PNum (Some 0); "rmse" := PNum (Some 0) ]}.

Definition persistence_models : Models :=
  {| get_sarima_forecast := persistence_forecast;
     get_xgboost_forecast := persistence_forecast;
     run_backtest_sarima := persistence_backtest;
     run_backtest_xgboost := persistence_backtest |}.

(** A series of fourteen months, January 2020 to February 2021, with the
    values 100, 101, ..., 113. *)
Definition example_series : Series :=
  (λ i, (MonthEnd (2020 * 12 + i), Some (100 + i))) <$> seqZ 0 14.

(** A series without missing values, as aggregate_sales produces. *)
Definition no_missing (ts : Series) : Prop := Forall (λ e, e.2 ≠ NaN) ts.

(** The frame a forecasting model hands back for the given history and
    horizon, if any, is indexed by valid dates. *)
Definition models_valid `{Models} (ts : Series) (steps : Z) : Prop :=
  ∀ frame status,
    (get_sarima_forecast ts steps = (Some frame, status)
     ∨ get_xgboost_forecast ts steps = (Some frame, status)) →
    Forall (λ e, valid_timestamp e.1) frame.

(** ** Further definitions used by the properties *)

(** The sheet record a table row comes from. *)
Definition sheet_row (r : Row) : ExcelRow :=
  mkExcelRow (DateValue (Order_Date r)) (Sales r) (Category r) (Region r).

(** The character occurs in the string. *)
Definition has_char (a : ascii) (s : string) : Prop := a ∈ list_ascii_of_string s.


(** Reading a date back, as the dashboard does with [pd.to_datetime] on
    the strings of the response: the ISO shape YYYY-MM-DD, the only one
    the service sends, is read field by field; anything else, or a date
    that does not exist, gives no timestamp. *)
Definition digit_value (c : ascii) : option Z :=
  if is_digit c then Some (Z.of_nat (nat_of_ascii c) - 48) else None.

Definition parse_ymd (s : string) : option Timestamp :=
  match list_ascii_of_string s with
  | [y1; y2; y3; y4; d1; m1; m2; d2; a1; a2] =>
      if bool_decide (d1 = "-"%char) && bool_decide (d2 = "-"%char) then
        y1 ← digit_value y1; y2 ← digit_value y2;
        y3 ← digit_value y3; y4 ← digit_value y4;
        m1 ← digit_value m1; m2 ← digit_value m2;
        a1 ← digit_value a1; a2 ← digit_value a2;
        let t := mkTimestamp (((y1 * 10 + y2) * 10 + y3) * 10 + y4)
                   (m1 * 10 + m2) (a1 * 10 + a2) in
        if decide (valid_timestamp t) then Some t else None
      else None
  | _ => None
  end.

(** ** The dashboard's calls to the service ([app.py]) *)

(** What [requests.get] gives the dashboard: a connection error, some
    other exception, or a response with its status code and its body,
    [None] when the body is not JSON. *)
Inductive http_reply : Type :=
  | ConnectionError
  | RequestException
  | Response (status_code : Z) (json : option json_body).

(** How the framework puts a handler's outcome on the wire: a returned
    body with status 200, an [HTTPException] with its status code and the
    body [{"detail": detail}]. *)
Definition fastapi_reply (o : outcome json_body) : http_reply :=
  match o with
  | Return body => Response 200 (Some body)
  | HTTPException code detail => Response code (Some (FlatDict {[ "detail" := PStr detail ]}))
  end.

(** [response.raise_for_status()] raises for the 4xx and 5xx codes. *)
Definition raises_for_status (status_code : Z) : bool :=
  (400 <=? status_code) && (status_code <? 600).

(** [dict.get(key)] for the keys with plain values; the nested "history"
    and "forecast" entries of a forecast response are not read through
    it. *)
Definition body_get (body : json_body) (key : string) : option pyval :=
  match body with
  | FlatDict d => d !! key
  | ForecastDict status model_used _ _ =>
      if decide (key = "status") then Some (PStr status)
      else if decide (key = "model_used") then Some (PStr model_used)
      else None
  end.

(** Truth value of a response dictionary: an empty one is false. *)
Definition body_truthy (body : json_body) : bool :=
  match body with
  | FlatDict d => bool_decide (d ≠ ∅)
  | ForecastDict _ _ _ _ => true
  end.

(** The [st.error] messages of the three helpers. *)
Inductive ui_event : Type :=
  | FiltersConnectionError
  | FiltersError
  | ForecastApiError (model_type : string) (detail : pyval)
  | ForecastConnectionError
  | ForecastError
  | EvaluationApiError (model_type : string) (detail : pyval)
  | EvaluationError.

(** A helper shows messages and returns a value, or lets an exception
    escape ([None]). *)
Definition client (A : Type) : Type := option (list ui_event * A).

Definition fallback_filters : pyval * pyval :=
  (PList ["All Categories"], PList ["All Regions"]).

(** One execution of the body of [get_filters_from_api], lines 18-30. *)
Definition get_filters_from_api (reply : http_reply) : client (pyval * pyval) :=
  match reply with
  | ConnectionError => Some ([FiltersConnectionError], fallback_filters)
  | RequestException => Some ([FiltersError], fallback_filters)
  | Response code json =>
      if raises_for_status code then Some ([FiltersError], fallback_filters)
      else match json with
           | None => Some ([FiltersError], fallback_filters)
           | Some data =>
               Some ([], (default (PList ["All Categories"]) (body_get data "categories"),
                          default (PList ["All Regions"]) (body_get data "regions")))
           end
  end.

(** [e.response.json().get('detail', 'Error desconocido')] *)
Definition error_detail (data : json_body) : pyval :=
  default (PStr "Error desconocido") (body_get data "detail").

(** [get_forecast_from_api], lines 32-52. *)
Definition get_forecast_from_api (model_type : string) (reply : http_reply)
  : client (option json_body) :=
  match reply with
  | ConnectionError => Some ([ForecastConnectionError], None)
  | RequestException => Some ([ForecastError], None)
  | Response code json =>
      if raises_for_status code then
        match json with
        | Some data => Some ([ForecastApiError model_type (error_detail data)], None)
        | None => None
        end
      else match json with
           | None => Some ([ForecastError], None)
           | Some data => Some ([], Some data)
           end
  end.


(** The three-way branch on the forecast response, lines 112-149, and the
    two-way branch on the evaluation response, lines 99-111. *)
Inductive forecast_view : Type := ShowForecast | WarnNoData | ShowFailure.

Definition status_is (api_response : option json_body) (status : string) : bool :=
  match api_response with
  | None => false
  | Some body => body_truthy body && bool_decide (body_get body "status" = Some (PStr status))
  end.

Definition forecast_branch (api_response : option json_body) : forecast_view :=
  if status_is api_response "success" then ShowForecast
  else if status_is api_response "error" then WarnNoData
  else ShowFailure.


(** ** More reference data

    A sheet as the file has it, with its original headers; the reference
    table extended by one sale in January 2021, so that its series runs
    over fourteen months; and a sheet with a date cell that does not
    convert. *)

Definition example_columns : list string :=
  ["Order Date"; "Sales"; "Category"; "Region"; "Sub-Category"].

Definition example_sheet : ExcelSheet :=
  mkExcelSheet example_columns (sheet_row <$> example_df).


Definition example_df_long : DataFrame :=
  example_df ++ [ mkRow (mkTimestamp 2021 1 15) 30 "Furniture" "West" ].

(** * Properties *)

(** ** The order on dates *)

Lemma ts_ltb_true (a b : Timestamp) :
  ts_ltb a b = true ↔
  ts_year a < ts_year b
  ∨ (ts_year a = ts_year b
     ∧ (ts_month a < ts_month b ∨ (ts_month a = ts_month b ∧ ts_day a < ts_day b))).
Proof.
  unfold ts_ltb.
  rewrite !orb_true_iff, !andb_true_iff, orb_true_iff, andb_true_iff.
  rewrite !Z.ltb_lt, !Z.eqb_eq. tauto.
Qed.

Lemma ts_ltb_false (a b : Timestamp) :
  ts_ltb a b = false ↔
  ts_year b < ts_year a
  ∨ (ts_year b = ts_year a
     ∧ (ts_month b < ts_month a ∨ (ts_month b = ts_month a ∧ ts_day b <= ts_day a))).
Proof.
  rewrite <- not_true_iff_false, ts_ltb_true. lia.
Qed.

Lemma ts_leb_true (a b : Timestamp) : ts_leb a b = true ↔ ts_ltb b a = false.
Proof. unfold ts_leb. apply negb_true_iff. Qed.

Ltac ts_order :=
  unfold ts_lt, ts_le in *;
  rewrite ?ts_leb_true in *;
  rewrite ?ts_ltb_true, ?ts_ltb_false in *;
  simpl in *; try lia.

Lemma ts_lt_trans (a b c : Timestamp) : ts_lt a b → ts_lt b c → ts_lt a c.
Proof. intros Hab Hbc. ts_order. Qed.

Lemma ts_le_refl (a : Timestamp) : ts_le a a.
Proof. ts_order. Qed.

Lemma ts_le_trans (a b c : Timestamp) : ts_le a b → ts_le b c → ts_le a c.
Proof. intros Hab Hbc. ts_order. Qed.

Lemma ts_min_le_l (a b : Timestamp) : ts_le (ts_min a b) a.
Proof.
  unfold ts_min. destruct (ts_ltb b a) eqn:E; [|apply ts_le_refl]. ts_order.
Qed.

Lemma ts_min_le_r (a b : Timestamp) : ts_le (ts_min a b) b.
Proof.
  unfold ts_min. destruct (ts_ltb b a) eqn:E; [apply ts_le_refl|]. ts_order.
Qed.

Lemma ts_max_ge_l (a b : Timestamp) : ts_le a (ts_max a b).
Proof.
  unfold ts_max. destruct (ts_ltb a b) eqn:E; [|apply ts_le_refl]. ts_order.
Qed.

Lemma ts_max_ge_r (a b : Timestamp) : ts_le b (ts_max a b).
Proof.
  unfold ts_max. destruct (ts_ltb a b) eqn:E; [apply ts_le_refl|]. ts_order.
Qed.

(** [Index.min()] returns an entry of the index that no entry precedes. *)
Lemma index_min_spec (idx : list Timestamp) :
  idx ≠ [] →
  ∃ m, index_min idx = Some m ∧ m ∈ idx ∧ ∀ t, t ∈ idx → ts_le m t.
Proof.
  destruct idx as [|t rest]; [done|]. intros _. simpl.
  exists (foldr ts_min t rest). split; [done|].
  induction rest as [|u rest [IHin IHle]]; simpl.
  - split; [left|]. intros x ->%list_elem_of_singleton. apply ts_le_refl.
  - split.
    + unfold ts_min at 1. destruct (ts_ltb _ _).
      * revert IHin. rewrite !elem_of_cons. tauto.
      * rewrite !elem_of_cons. tauto.
    + intros x. rewrite !elem_of_cons. intros [->|[->|Hx]].
      * eapply ts_le_trans; [apply ts_min_le_r|]. apply IHle. left.
      * apply ts_min_le_l.
      * eapply ts_le_trans; [apply ts_min_le_r|]. apply IHle. by right.
Qed.

Lemma index_max_spec (idx : list Timestamp) :
  idx ≠ [] →
  ∃ m, index_max idx = Some m ∧ m ∈ idx ∧ ∀ t, t ∈ idx → ts_le t m.
Proof.
  destruct idx as [|t rest]; [done|]. intros _. simpl.
  exists (foldr ts_max t rest). split; [done|].
  induction rest as [|u rest [IHin IHle]]; simpl.
  - split; [left|]. intros x ->%list_elem_of_singleton. apply ts_le_refl.
  - split.
    + unfold ts_max at 1. destruct (ts_ltb _ _).
      * revert IHin. rewrite !elem_of_cons. tauto.
      * rewrite !elem_of_cons. tauto.
    + intros x. rewrite !elem_of_cons. intros [->|[->|Hx]].
      * eapply ts_le_trans; [|apply ts_max_ge_r]. apply IHle. left.
      * apply ts_max_ge_l.
      * eapply ts_le_trans; [|apply ts_max_ge_r]. apply IHle. by right.
Qed.

(** ** The monthly grid *)

Lemma days_in_month_bounds (y m : Z) : 28 <= days_in_month y m <= 31.
Proof.
  unfold days_in_month.
  destruct (m =? 2); [destruct (is_leap_year y); lia|].
  destruct ((m =? 4) || (m =? 6) || (m =? 9) || (m =? 11)); lia.
Qed.

Lemma month_ord_MonthEnd (k : Z) : month_ord (MonthEnd k) = k.
Proof. unfold month_ord, MonthEnd. simpl. Z.div_mod_to_equations. lia. Qed.

Lemma same_month_MonthEnd (t : Timestamp) (k : Z) :
  1 <= ts_month t <= 12 → same_month t (MonthEnd k) ↔ month_ord t = k.
Proof.
  intros Hm. unfold same_month, month_ord, MonthEnd. simpl.
  Z.div_mod_to_equations. lia.
Qed.

Lemma MonthEnd_lt (k k' : Z) : k < k' → ts_lt (MonthEnd k) (MonthEnd k').
Proof.
  intros Hk. unfold ts_lt. rewrite ts_ltb_true. simpl.
  assert (k / 12 < k' / 12 ∨ (k / 12 = k' / 12 ∧ k mod 12 + 1 < k' mod 12 + 1))
    by (Z.div_mod_to_equations; lia).
  tauto.
Qed.

(** A calendar date lies after the end of month [j] exactly when its own
    month comes later. *)
Lemma MonthEnd_before (j : Z) (t : Timestamp) :
  calendar_date t → ts_ltb (MonthEnd j) t = true ↔ j < month_ord t.
Proof.
  intros [Hm Hd]. rewrite ts_ltb_true. unfold month_ord. simpl. split.
  - intros [Hy|[Hy [Hlt|[Heq Hday]]]].
    + Z.div_mod_to_equations. lia.
    + Z.div_mod_to_equations. lia.
    + exfalso. rewrite Hy, Heq in Hday. lia.
  - intros Hlt.
    assert (j / 12 < ts_year t ∨ (j / 12 = ts_year t ∧ j mod 12 + 1 < ts_month t))
      by (Z.div_mod_to_equations; lia).
    tauto.
Qed.

Lemma in_bin_month_ord (k : Z) (t : Timestamp) :
  calendar_date t → in_bin k t = true ↔ month_ord t = k.
Proof.
  intros Ht. unfold in_bin, ts_leb.
  rewrite andb_true_iff, negb_true_iff, <- not_true_iff_false.
  rewrite !MonthEnd_before by done. lia.
Qed.

Lemma ts_le_month_ord (a b : Timestamp) :
  1 <= ts_month a <= 12 → 1 <= ts_month b <= 12 →
  ts_le a b → month_ord a <= month_ord b.
Proof. intros Ha Hb Hab. unfold month_ord. ts_order. Qed.

(** ** Resampling *)

Lemma bin_sum_sales_by_date (k : Z) (rows : DataFrame) :
  Forall (λ r, calendar_date (Order_Date r)) rows →
  bin_sum k (sales_by_date rows)
  = sum_Z (Sales <$> filter (λ r, same_month (Order_Date r) (MonthEnd k)) rows).
Proof.
  unfold bin_sum, sales_by_date.
  induction 1 as [|r rows Hr _ IH]; [done|].
  rewrite fmap_cons, !filter_cons. simpl.
  destruct (decide (in_bin k (Order_Date r) = true)) as [Hin|Hin];
    rewrite in_bin_month_ord in Hin by done;
    rewrite <- same_month_MonthEnd in Hin by apply Hr.
  - rewrite decide_True by done. simpl. f_equal. exact IH.
  - rewrite decide_False by done. exact IH.
Qed.

Lemma resample_ME_sum_index (s : list (Timestamp * Z)) (first last : Timestamp) :
  index_min s.*1 = Some first → index_max s.*1 = Some last →
  resample_ME_sum s
  = (λ k, (MonthEnd k, Some (bin_sum k s)))
      <$> seqZ (month_ord first) (month_ord last - month_ord first + 1).
Proof. intros Hmin Hmax. unfold resample_ME_sum. by rewrite Hmin, Hmax. Qed.

(** Slicing a series from its smallest index value removes nothing. *)
Lemma slice_from_index_min (s : Series) : slice_from (index_min s.*1) s = s.
Proof.
  destruct s as [|[t v] s]; [done|].
  destruct (index_min_spec (((t, v) :: s).*1)) as (m & Hm & _ & Hle); [done|].
  rewrite Hm. unfold slice_from. simpl.
  assert (Ht : ts_le m t) by (apply Hle; left).
  unfold ts_le in Ht. rewrite ts_leb_true in Ht. by rewrite Ht.
Qed.

Lemma df_filtered_filter (df : DataFrame) (category region : string) :
  df_filtered df category region = filter (selected category region) df.
Proof.
  unfold df_filtered, filter_region, filter_category, selected.
  repeat case_decide; subst.
  - rewrite list_filter_filter. apply list_filter_iff. intros r. tauto.
  - apply list_filter_iff. intros r. tauto.
  - apply list_filter_iff. intros r. tauto.
  - symmetry. induction df as [|r df IH]; [done|].
    rewrite filter_cons_True by tauto. by f_equal.
Qed.

Lemma aggregate_sales_resample (df : DataFrame) (category region : string) :
  df_filtered df category region ≠ [] →
  aggregate_sales (Some df) category region
  = (resample_ME_sum (sales_by_date (df_filtered df category region)), true).
Proof.
  intros Hne. unfold aggregate_sales.
  rewrite decide_False by done. by rewrite slice_from_index_min.
Qed.

(** ** aggregate_sales *)

Lemma filter_none {A} (P : A → Prop) `{∀ x, Decision (P x)} (l : list A) :
  (∀ x, x ∈ l → ¬ P x) → filter P l = [].
Proof.
  induction l as [|x l IH]; [done|]. intros Hl.
  rewrite filter_cons_False by (apply Hl; left).
  apply IH. intros y Hy. apply Hl. by right.
Qed.

Lemma filter_twice {A} (P : A → Prop) `{∀ x, Decision (P x)} (l : list A) :
  filter P (filter P l) = filter P l.
Proof.
  induction l as [|x l IH]; [done|].
  rewrite (filter_cons _ x l). destruct (decide (P x)).
  - rewrite filter_cons_True by done. by rewrite IH.
  - exact IH.
Qed.

(** C8. aggregate_sales keeps a row exactly when the category selection is
    the sentinel "All Categories" or equals the row's Category, and the
    region selection is the sentinel "All Regions" or equals the row's
    Region; the rows kept stay in order, with their multiplicity. *)
Theorem df_filtered_selected (df : DataFrame) (category region : string) :
  df_filtered df category region = filter (selected category region) df
  ∧ ∀ r, r ∈ df_filtered df category region ↔ r ∈ df ∧ selected category region r.
Proof.
  split; [apply df_filtered_filter|].
  intros r. rewrite df_filtered_filter, list_elem_of_filter. tauto.
Qed.

(** C1. When the selection keeps at least one row, aggregate_sales returns
    (series, True) where the index of the series is exactly the month-end
    dates from the month of the earliest kept transaction to the month of
    the latest, one per month: strictly increasing, consecutive months,
    each value the sum of Sales of the kept rows of that month (0 when the
    month has none), and the first entry is the month of the earliest
    transaction. *)
Theorem aggregate_sales_monthly_series (df : DataFrame) (category region : string) :
  Forall (λ r, calendar_date (Order_Date r)) df →
  df_filtered df category region ≠ [] →
  ∃ (earliest latest : Row) (ts_monthly : Series),
    let rows := df_filtered df category region in
    let lo := month_ord (Order_Date earliest) in
    let hi := month_ord (Order_Date latest) in
    aggregate_sales (Some df) category region = (ts_monthly, true)
    ∧ earliest ∈ rows ∧ latest ∈ rows
    ∧ (∀ r, r ∈ rows →
         ts_le (Order_Date earliest) (Order_Date r)
         ∧ ts_le (Order_Date r) (Order_Date latest))
    ∧ lo <= hi
    ∧ ts_monthly.*1 = MonthEnd <$> seqZ lo (hi - lo + 1)
    ∧ (∀ (i j : nat) a b, ts_monthly.*1 !! i = Some a → ts_monthly.*1 !! j = Some b →
         (i < j)%nat → ts_lt a b)
    ∧ (∀ (i : nat) a b, ts_monthly.*1 !! i = Some a → ts_monthly.*1 !! S i = Some b →
         month_ord b = month_ord a + 1)
    ∧ (∀ (i : nat) t v, ts_monthly !! i = Some (t, v) →
         v = Some (sum_Z (Sales <$> filter (λ r, same_month (Order_Date r) t) rows))
         ∧ ((∀ r, r ∈ rows → ¬ same_month (Order_Date r) t) → v = Some 0))
    ∧ (∃ t v, ts_monthly !! 0%nat = Some (t, v) ∧ same_month (Order_Date earliest) t).
Proof.
  intros Hdf Hne.
  set (rows := df_filtered df category region).
  assert (Hrows : Forall (λ r, calendar_date (Order_Date r)) rows).
  { unfold rows. rewrite df_filtered_filter. apply Forall_forall.
    intros r [_ Hr]%list_elem_of_filter. revert r Hr. by apply Forall_forall. }
  assert (Hidx : (sales_by_date rows).*1 = Order_Date <$> rows).
  { unfold sales_by_date. rewrite <- list_fmap_compose. done. }
  assert (Hidx_ne : (sales_by_date rows).*1 ≠ []).
  { rewrite Hidx. by intros ?%fmap_nil_inv. }
  destruct (index_min_spec _ Hidx_ne) as (first & Hmin & Hfirst & Hfirst_le).
  destruct (index_max_spec _ Hidx_ne) as (last & Hmax & Hlast & Hlast_le).
  rewrite Hidx in Hfirst, Hlast.
  apply list_elem_of_fmap in Hfirst as (earliest & -> & Hearliest).
  apply list_elem_of_fmap in Hlast as (latest & -> & Hlatest).
  assert (Hcal : ∀ r, r ∈ rows → calendar_date (Order_Date r)).
  { by apply Forall_forall. }
  assert (Hbetween : ∀ r, r ∈ rows →
            ts_le (Order_Date earliest) (Order_Date r)
            ∧ ts_le (Order_Date r) (Order_Date latest)).
  { intros r Hr. split; [apply Hfirst_le|apply Hlast_le];
      rewrite Hidx; apply list_elem_of_fmap; eauto. }
  set (lo := month_ord (Order_Date earliest)).
  set (hi := month_ord (Order_Date latest)).
  assert (Hlohi : lo <= hi).
  { apply ts_le_month_ord; [apply Hcal, Hearliest|apply Hcal, Hlatest|].
    by apply Hbetween. }
  exists earliest, latest,
    ((λ k, (MonthEnd k, Some (bin_sum k (sales_by_date rows)))) <$> seqZ lo (hi - lo + 1)).
  cbv zeta. fold rows lo hi.
  assert (Hlook : ∀ (i : nat) t,
            ((λ k, (MonthEnd k, Some (bin_sum k (sales_by_date rows))))
               <$> seqZ lo (hi - lo + 1)).*1 !! i = Some t →
            t = MonthEnd (lo + Z.of_nat i)).
  { intros i t. rewrite <- list_fmap_compose, list_lookup_fmap.
    destruct (seqZ lo (hi - lo + 1) !! i) as [k|] eqn:Hk; [|done].
    apply lookup_seqZ in Hk as [-> _]. simpl. congruence. }
  split_and!.
  - rewrite aggregate_sales_resample by done. fold rows.
    by rewrite (resample_ME_sum_index _ _ _ Hmin Hmax).
  - done.
  - done.
  - done.
  - done.
  - by rewrite <- list_fmap_compose.
  - intros i j a b ->%Hlook ->%Hlook Hij. apply MonthEnd_lt. lia.
  - intros i a b ->%Hlook ->%Hlook. rewrite !month_ord_MonthEnd. lia.
  - intros i t v. rewrite list_lookup_fmap.
    destruct (seqZ lo (hi - lo + 1) !! i) as [k|] eqn:Hk; [|done].
    simpl. intros [= <- <-].
    rewrite bin_sum_sales_by_date by done. split; [done|].
    intros Hnone. f_equal.
    by rewrite filter_none.
  - exists (MonthEnd lo), (Some (bin_sum lo (sales_by_date rows))). split.
    + rewrite list_lookup_fmap, lookup_seqZ_lt by lia. simpl.
      by rewrite Z.add_0_r.
    + apply same_month_MonthEnd; [apply Hcal, Hearliest|done].
Qed.

(** C10. Line 40, the slice from the smallest index value, changes nothing:
    aggregate_sales returns what the plain month-end resample and sum
    returns, because the resampled index starts at its own minimum, so the
    slice begins at position 0. *)
Theorem aggregate_sales_slice_identity (df : option DataFrame) (category region : string) :
  aggregate_sales df category region = aggregate_sales_unsliced df category region
  ∧ ∀ rows : DataFrame,
      let ts_monthly := resample_ME_sum (sales_by_date rows) in
      slice_from (index_min ts_monthly.*1) ts_monthly = ts_monthly
      ∧ ∀ m, index_min ts_monthly.*1 = Some m → searchsorted_left ts_monthly.*1 m = 0%nat.
Proof.
  split.
  - destruct df as [df|]; [|done]. unfold aggregate_sales, aggregate_sales_unsliced.
    case_decide; [done|]. by rewrite slice_from_index_min.
  - intros rows ts_monthly. split; [apply slice_from_index_min|].
    intros m Hm. destruct ts_monthly as [|[t v] s]; [done|].
    destruct (index_min_spec (((t, v) :: s).*1)) as (m' & Hm' & _ & Hle); [done|].
    rewrite Hm in Hm'. injection Hm' as <-. simpl.
    assert (Ht : ts_le m t) by (apply Hle; left).
    unfold ts_le in Ht. rewrite ts_leb_true in Ht. by rewrite Ht.
Qed.

(** The series aggregate_sales returns has no missing value. *)
Lemma aggregate_sales_no_missing (df : option DataFrame) (category region : string) :
  no_missing (aggregate_sales df category region).1.
Proof.
  destruct df as [df|]; [|constructor]. unfold aggregate_sales.
  case_decide; [constructor|]. rewrite slice_from_index_min. simpl.
  unfold resample_ME_sum.
  destruct (index_min _); [|constructor]. destruct (index_max _); [|constructor].
  apply Forall_fmap, Forall_forall. by intros k _.
Qed.

(** ** The endpoints *)

Section endpoint_properties.
Context `{Models}.

Lemma load_data_failure_status (FILE_NAME : string) (read : read_excel_result) e :
  load_data_body read = inl e →
  ∃ STATUS, load_data FILE_NAME read = (None, STATUS) ∧ STATUS ≠ "Success".
Proof.
  intros He. unfold load_data. rewrite He. destruct e; eauto.
Qed.

(** C6. A selection matching no row of the dataset makes aggregate_sales
    return the empty series with hasData = False, and both endpoints
    return, after that one call, the "No data found" dictionary as an
    ordinary response body; nothing is raised. *)
Theorem no_data_is_a_returned_result (df : DataFrame) (STATUS : string)
    (model_type category region : string) (steps : Z) :
  df_filtered df category region = [] →
  aggregate_sales (Some df) category region = (empty_series, false)
  ∧ sales_forecast_endpoint (Some df) STATUS model_type category region steps
    = ([AggregateSales category region], Return (no_data_body category region))
  ∧ sales_evaluation_endpoint (Some df) STATUS model_type category region
    = ([AggregateSales category region], Return (no_data_body category region)).
Proof.
  intros Hempty.
  assert (Hagg : aggregate_sales (Some df) category region = (empty_series, false)).
  { unfold aggregate_sales. by rewrite decide_True. }
  split; [done|].
  unfold sales_forecast_endpoint, sales_evaluation_endpoint.
  by rewrite Hagg.
Qed.

(** C5, as the code has it.  With the dataset loaded and a selection that
    keeps at least one row, a model_type other than "sarima" and
    "xgboost" makes both endpoints raise HTTP 400 with the detail
    "model_type debe ser 'sarima' o 'xgboost'"; the only call made before
    is the aggregation, and neither model is run. *)
Theorem unknown_model_type_rejected (df : DataFrame) (STATUS : string)
    (model_type category region : string) (steps : Z) :
  model_type ≠ "sarima" → model_type ≠ "xgboost" →
  df_filtered df category region ≠ [] →
  sales_forecast_endpoint (Some df) STATUS model_type category region steps
  = ([AggregateSales category region], HTTPException 400 unknown_model_detail)
  ∧ sales_evaluation_endpoint (Some df) STATUS model_type category region
    = ([AggregateSales category region], HTTPException 400 unknown_model_detail).
Proof.
  intros Hs Hx Hne.
  unfold sales_forecast_endpoint, sales_evaluation_endpoint.
  rewrite aggregate_sales_resample by done.
  unfold mbind, handler_bind, invoke, raise. simpl.
  by rewrite !decide_False by done.
Qed.

(** C7, as the code has it.  When the load fails, load_data returns None
    with a reason other than "Success", and the three endpoints that
    read the dataset raise HTTP 500 at once, before any call, with the
    stored reason in the detail. *)
Theorem load_failure_is_terminal (FILE_NAME : string) (read : read_excel_result)
    (e : exception) (model_type category region : string) (steps : Z) :
  load_data_body read = inl e →
  ∃ STATUS,
    load_data FILE_NAME read = (None, STATUS)
    ∧ STATUS ≠ "Success"
    ∧ get_filters None STATUS
      = ([], HTTPException 500 ("Datos no cargados. Razón: " +:+ STATUS))
    ∧ sales_forecast_endpoint None STATUS model_type category region steps
      = ([], HTTPException 500 ("Error de carga de datos inicial: " +:+ STATUS))
    ∧ sales_evaluation_endpoint None STATUS model_type category region
      = ([], HTTPException 500 ("Error de carga de datos inicial: " +:+ STATUS)).
Proof.
  intros He.
  destruct (load_data_failure_status FILE_NAME read e He) as (STATUS & Hload & Hst).
  exists STATUS. by repeat split.
Qed.
End endpoint_properties.

(** ** The endpoints on the reference table *)

Lemma aggregate_sales_monthly_series_witness :
  Forall (λ r, calendar_date (Order_Date r)) example_df
  ∧ df_filtered example_df "Furniture" "West" ≠ []
  ∧ ∃ ts_monthly, aggregate_sales (Some example_df) "Furniture" "West" = (ts_monthly, true).
Proof.
  assert (Hcal : Forall (λ r, calendar_date (Order_Date r)) example_df).
  { compute_done. }
  assert (Hne : df_filtered example_df "Furniture" "West" ≠ []).
  { vm_compute. discriminate. }
  split; [exact Hcal|]. split; [exact Hne|].
  destruct (aggregate_sales_monthly_series example_df "Furniture" "West" Hcal Hne)
    as (_ & _ & ts_monthly & Hagg & _).
  exists ts_monthly. exact Hagg.
Defined.

Lemma no_data_is_a_returned_result_witness :
  df_filtered example_df "Technology" "West" = []
  ∧ sales_evaluation_endpoint (H := persistence_models)
      (Some example_df) "Success" "sarima" "Technology" "West"
    = ([AggregateSales "Technology" "West"], Return (no_data_body "Technology" "West")).
Proof.
  split; [reflexivity|].
  apply (no_data_is_a_returned_result (H := persistence_models)
           example_df "Success" "sarima" "Technology" "West" 12).
  reflexivity.
Defined.

Lemma unknown_model_type_rejected_witness :
  "bogus" ≠ "sarima" ∧ "bogus" ≠ "xgboost"
  ∧ df_filtered example_df "Furniture" "West" ≠ []
  ∧ sales_forecast_endpoint (H := persistence_models)
      (Some example_df) "Success" "bogus" "Furniture" "West" 12
    = ([AggregateSales "Furniture" "West"], HTTPException 400 unknown_model_detail).
Proof.
  assert (Hne : df_filtered example_df "Furniture" "West" ≠ []).
  { vm_compute. discriminate. }
  split; [discriminate|]. split; [discriminate|]. split; [exact Hne|].
  apply (unknown_model_type_rejected (H := persistence_models)
           example_df "Success" "bogus" "Furniture" "West" 12);
    [discriminate|discriminate|exact Hne].
Defined.

(** C5 as stated fails on the code.  "Technology" and "West" are both
    offered by /config/filters for the reference table, yet no row has
    both: with the unknown model_type "bogus" the two endpoints return the
    "No data found" body instead of rejecting the identifier.  And where
    the identifier is rejected, the aggregation has already been called. *)
Lemma unknown_model_type_counterexample :
  "bogus" ≠ "sarima" ∧ "bogus" ≠ "xgboost"
  ∧ "Technology" ∈ CATEGORIES example_df ∧ "West" ∈ REGIONS example_df
  ∧ sales_forecast_endpoint (H := persistence_models)
      (Some example_df) "Success" "bogus" "Technology" "West" 12
    = ([AggregateSales "Technology" "West"], Return (no_data_body "Technology" "West"))
  ∧ sales_evaluation_endpoint (H := persistence_models)
      (Some example_df) "Success" "bogus" "Technology" "West"
    = ([AggregateSales "Technology" "West"], Return (no_data_body "Technology" "West"))
  ∧ (sales_forecast_endpoint (H := persistence_models)
       (Some example_df) "Success" "bogus" "Furniture" "West" 12).1
    = [AggregateSales "Furniture" "West"].
Proof.
  split; [discriminate|]. split; [discriminate|].
  split; [vm_compute; set_solver|]. split; [vm_compute; set_solver|].
  split; [reflexivity|]. split; reflexivity.
Qed.

Lemma load_failure_is_terminal_witness :
  load_data_body (ReadRaises (FileNotFoundError "No such file or directory"))
  = inl (FileNotFoundError "No such file or directory")
  ∧ ∃ STATUS,
      load_data "data/US Superstore data.xls"
        (ReadRaises (FileNotFoundError "No such file or directory")) = (None, STATUS)
      ∧ get_filters None STATUS
        = ([], HTTPException 500 ("Datos no cargados. Razón: " +:+ STATUS)).
Proof.
  split; [reflexivity|].
  destruct (load_failure_is_terminal (H := persistence_models)
              "data/US Superstore data.xls"
              (ReadRaises (FileNotFoundError "No such file or directory"))
              (FileNotFoundError "No such file or directory")
              "sarima" "All Categories" "All Regions" 12 eq_refl)
    as (STATUS & Hload & _ & Hfilters & _).
  exists STATUS. split; [exact Hload|exact Hfilters].
Defined.

(** C7 as stated fails on the code for one endpoint: the root endpoint
    reads no dataset state, so after a failed load it still returns its
    welcome message. *)
Lemma load_failure_root_counterexample :
  load_data "data/US Superstore data.xls"
    (ReadRaises (FileNotFoundError "No such file or directory"))
  = (None, "Error: Archivo no encontrado en: data/US Superstore data.xls")
  ∧ read_root = ([], Return (FlatDict {[ "message" := PStr welcome ]}))
  ∧ ∀ code detail, read_root ≠ ([], HTTPException code detail).
Proof.
  split; [reflexivity|]. split; [reflexivity|]. intros code detail. discriminate.
Qed.

(** ** create_features_for_ml *)

Section features.
Local Open Scope nat_scope.

Lemma length_shift (n : nat) (col : list cell) : length (shift n col) = length col.
Proof.
  unfold shift. rewrite length_take, length_app, length_replicate. lia.
Qed.

Lemma shift_short (n : nat) (col : list cell) :
  length col ≤ n → shift n col = replicate (length col) NaN.
Proof.
  intros Hn. unfold shift.
  rewrite take_app_le by (rewrite length_replicate; lia).
  rewrite take_replicate. f_equal. lia.
Qed.

Lemma shift_long (n : nat) (col : list cell) :
  n ≤ length col → shift n col = replicate n NaN ++ take (length col - n) col.
Proof.
  intros Hn. unfold shift.
  rewrite take_app_ge by (rewrite length_replicate; lia).
  by rewrite length_replicate.
Qed.

Lemma length_bfill (col : list cell) : length (bfill col) = length col.
Proof.
  induction col as [|[v|] col IH]; simpl; [done|by rewrite IH..].
Qed.

(** A column without NaN is left as it is. *)
Lemma bfill_present (col : list cell) :
  Forall (λ c, c ≠ NaN) col → bfill col = col.
Proof.
  induction 1 as [|[v|] col Hc _ IH]; simpl; [done|by rewrite IH|done].
Qed.

(** A value that is present stays where it is. *)
Lemma bfill_lookup_present (col : list cell) (i : nat) (v : Z) :
  col !! i = Some (Some v) → bfill col !! i = Some (Some v).
Proof.
  revert i. induction col as [|c col IH]; intros [|i]; simpl; try done.
  - intros [= ->]. done.
  - intros Hi. destruct c; simpl; by apply IH.
Qed.

(** Leading NaN cells all take the first filled value that follows. *)
Lemma bfill_leading_NaN (n : nat) (col : list cell) :
  bfill (replicate n NaN ++ col)
  = replicate n (default NaN (head (bfill col))) ++ bfill col.
Proof.
  induction n as [|n IH]; [done|].
  simpl. rewrite IH. f_equal.
  destruct n; [done|]. done.
Qed.

Lemma bfill_all_NaN (n : nat) : bfill (replicate n NaN) = replicate n NaN.
Proof.
  rewrite <- (app_nil_r (replicate n NaN)) at 1.
  rewrite bfill_leading_NaN. simpl. by rewrite app_nil_r.
Qed.

(** The lag column after the fill, for a series longer than the lag. *)
Lemma lag_12_long (ts_data : Series) :
  12 ≤ length ts_data →
  lag_12 (create_features_for_ml ts_data).1
  = replicate 12 (default NaN (head (bfill (take (length ts_data - 12) ts_data.*2))))
    ++ bfill (take (length ts_data - 12) ts_data.*2).
Proof.
  intros HL. simpl. rewrite shift_long by (rewrite length_fmap; lia).
  by rewrite bfill_leading_NaN, length_fmap.
Qed.

Lemma lag_12_short (ts_data : Series) :
  length ts_data ≤ 12 →
  lag_12 (create_features_for_ml ts_data).1 = replicate (length ts_data) NaN.
Proof.
  intros HL. simpl. rewrite shift_short by (rewrite length_fmap; lia).
  by rewrite bfill_all_NaN, length_fmap.
Qed.

Lemma no_missing_values (ts_data : Series) :
  no_missing ts_data → Forall (λ c, c ≠ NaN) ts_data.*2.
Proof. unfold no_missing. intros Hts. by apply Forall_fmap. Qed.

(** C2, as the code has it.  For a series without missing values the
    feature table has one row per entry, in the same positions: the
    index, month, year and quarter of each entry, and the target equal to
    the series values.  lag_12[i] is sales[i-12] for i >= 12.  For
    i < 12 it is filled backward with the earliest value sales[0] when
    the series has at least 13 entries, and stays NaN when the series has
    at most 12 entries. *)
Theorem create_features_for_ml_rows (ts_data : Series) :
  no_missing ts_data →
  let X := (create_features_for_ml ts_data).1 in
  let y := (create_features_for_ml ts_data).2 in
  let L := length ts_data in
  X_index X = ts_data.*1
  ∧ y = ts_data.*2
  ∧ length (month X) = L ∧ length (year X) = L ∧ length (quarter X) = L
  ∧ length (lag_12 X) = L
  ∧ (∀ i t v, ts_data !! i = Some (t, v) →
       month X !! i = Some (ts_month t) ∧ year X !! i = Some (ts_year t)
       ∧ quarter X !! i = Some (quarter_of t))
  ∧ (∀ i, 12 ≤ i → i < L → lag_12 X !! i = ts_data.*2 !! (i - 12))
  ∧ (13 ≤ L → ∀ i, i < 12 → lag_12 X !! i = ts_data.*2 !! 0)
  ∧ (L ≤ 12 → ∀ i, i < L → lag_12 X !! i = Some NaN).
Proof.
  intros Hts X y L.
  pose proof (no_missing_values _ Hts) as Hvals.
  assert (Htake : bfill (take (L - 12) ts_data.*2) = take (L - 12) ts_data.*2).
  { apply bfill_present. by apply Forall_take. }
  split_and!.
  - done.
  - unfold y. simpl. by apply bfill_present.
  - unfold X. simpl. by rewrite !length_fmap.
  - unfold X. simpl. by rewrite !length_fmap.
  - unfold X. simpl. by rewrite !length_fmap.
  - unfold X. simpl. by rewrite length_bfill, length_shift, length_fmap.
  - intros i t v Hi. unfold X. simpl.
    rewrite !list_lookup_fmap, Hi. done.
  - intros i Hi HiL. unfold X. rewrite lag_12_long by (unfold L in *; lia).
    fold L. rewrite Htake.
    rewrite lookup_app_r by (rewrite length_replicate; lia).
    rewrite length_replicate. apply lookup_take_lt. lia.
  - intros HL i Hi. unfold X. rewrite lag_12_long by (unfold L in *; lia).
    fold L. rewrite Htake.
    rewrite lookup_app_l by (rewrite length_replicate; lia).
    rewrite lookup_replicate_2 by done.
    rewrite head_lookup, lookup_take_lt by lia.
    destruct (lookup_lt_is_Some_2 ts_data.*2 0) as [c Hc].
    { rewrite length_fmap. unfold L in *. lia. }
    by rewrite Hc.
  - intros HL i Hi. unfold X. rewrite lag_12_short by done.
    by apply lookup_replicate_2.
Qed.

(** C3, as the code has it.  For a series of at least 13 entries each of
    lag_12[0..11] equals lag_12[12], the first true lag, which is
    sales[0] when that value is present: the fill takes sales[0], not
    sales[12]. *)
Theorem lag_12_backfill_takes_first_value (ts_data : Series) (i : nat) :
  13 ≤ length ts_data → i < 12 →
  let X := (create_features_for_ml ts_data).1 in
  lag_12 X !! i = lag_12 X !! 12
  ∧ ∀ v, ts_data.*2 !! 0 = Some (Some v) → lag_12 X !! i = Some (Some v).
Proof.
  intros HL Hi X. unfold X. rewrite lag_12_long by lia.
  set (rest := bfill (take (length ts_data - 12) ts_data.*2)).
  assert (Hrest : is_Some (rest !! 0)).
  { apply lookup_lt_is_Some_2. unfold rest.
    rewrite length_bfill, length_take, length_fmap. lia. }
  destruct Hrest as [c Hc].
  assert (Hd : default NaN (head rest) = c) by (by rewrite head_lookup, Hc).
  rewrite Hd.
  assert (Hlow : (replicate 12 c ++ rest) !! i = Some c).
  { rewrite lookup_app_l by (rewrite length_replicate; lia).
    by apply lookup_replicate_2. }
  assert (H12 : (replicate 12 c ++ rest) !! 12 = Some c).
  { rewrite lookup_app_r by (rewrite length_replicate; lia).
    by rewrite length_replicate. }
  rewrite Hlow, H12. split; [done|].
  intros v Hv. f_equal.
  assert (Hhead : rest !! 0 = Some (Some v)).
  { unfold rest. apply bfill_lookup_present. by rewrite lookup_take_lt by lia. }
  rewrite Hc in Hhead. by injection Hhead.
Qed.
End features.

Lemma create_features_for_ml_rows_witness :
  no_missing example_series
  ∧ lag_12 (create_features_for_ml example_series).1 !! 13%nat
    = example_series.*2 !! 1%nat.
Proof.
  assert (Hts : no_missing example_series).
  { unfold no_missing. compute_done. }
  split; [exact Hts|].
  pose proof (create_features_for_ml_rows example_series Hts) as Hrows.
  cbv zeta in Hrows.
  destruct Hrows as (_ & _ & _ & _ & _ & _ & _ & Hlag & _).
  apply (Hlag 13%nat); vm_compute; lia.
Defined.

(** C2 as stated fails on short series: with three entries, all of them
    actual values, the whole lag_12 column is left missing. *)
Lemma lag_12_short_series_counterexample :
  no_missing (take 3 example_series)
  ∧ (take 3 example_series).*2 = [Some 100; Some 101; Some 102]
  ∧ lag_12 (create_features_for_ml (take 3 example_series)).1 = [NaN; NaN; NaN].
Proof.
  split; [unfold no_missing; compute_done|]. split; reflexivity.
Qed.

Lemma lag_12_backfill_takes_first_value_witness :
  (13 ≤ length example_series)%nat ∧ (3 < 12)%nat
  ∧ lag_12 (create_features_for_ml example_series).1 !! 3%nat
    = lag_12 (create_features_for_ml example_series).1 !! 12%nat.
Proof.
  assert (HL : (13 ≤ length example_series)%nat) by (vm_compute; lia).
  assert (Hi : (3 < 12)%nat) by lia.
  split; [exact HL|]. split; [exact Hi|].
  pose proof (lag_12_backfill_takes_first_value example_series 3 HL Hi) as Hlag.
  cbv zeta in Hlag. exact (proj1 Hlag).
Defined.

(** C3 as stated fails on the code: on the fourteen-month series
    100, 101, ..., 113 the first twelve lags are all 100 = sales[0],
    while sales[12] is 112. *)
Lemma lag_12_backfill_counterexample :
  length example_series = 14%nat
  ∧ example_series.*2 !! 12%nat = Some (Some 112)
  ∧ take 12 (lag_12 (create_features_for_ml example_series).1) = replicate 12 (Some 100)
  ∧ ∃ i : nat, (i < 12)%nat
      ∧ lag_12 (create_features_for_ml example_series).1 !! i ≠ example_series.*2 !! 12%nat.
Proof.
  split; [reflexivity|]. split; [reflexivity|]. split; [reflexivity|].
  exists 0%nat. split; [lia|]. vm_compute. discriminate.
Qed.

(** ** Date strings *)

Lemma is_digit_digit_char (d : Z) : 0 <= d <= 9 → is_digit (digit_char d) = true.
Proof.
  intros Hd.
  assert (Hcases : d = 0 ∨ d = 1 ∨ d = 2 ∨ d = 3 ∨ d = 4 ∨ d = 5 ∨ d = 6
                   ∨ d = 7 ∨ d = 8 ∨ d = 9) by lia.
  repeat destruct Hcases as [->|Hcases]; try reflexivity.
  subst. reflexivity.
Qed.

Lemma is_digit_mod_10 (n : Z) : is_digit (digit_char (n mod 10)) = true.
Proof. apply is_digit_digit_char. Z.div_mod_to_equations. lia. Qed.

Lemma decimal_go_1 (fuel : nat) (n : Z) (acc : string) :
  (1 ≤ fuel)%nat → 0 <= n <= 9 →
  decimal_go fuel n acc = String (digit_char (n mod 10)) acc.
Proof.
  intros Hf Hn. destruct fuel as [|fuel]; [lia|]. cbn [decimal_go].
  rewrite (proj2 (Z.eqb_eq (n / 10) 0)); [done|].
  Z.div_mod_to_equations. lia.
Qed.

(** One more digit: a number of at least 10 yields its last digit and
    goes on with the quotient. *)
Lemma decimal_go_step (fuel : nat) (n : Z) (acc : string) :
  10 <= n →
  decimal_go (S fuel) n acc = decimal_go fuel (n / 10) (String (digit_char (n mod 10)) acc).
Proof.
  intros Hn. cbn [decimal_go].
  rewrite (proj2 (Z.eqb_neq (n / 10) 0)); [done|].
  Z.div_mod_to_equations. lia.
Qed.

Lemma decimal_four_digits (y : Z) :
  1000 <= y <= 9999 →
  ∃ a b c d, decimal y = String a (String b (String c (String d "")))
    ∧ is_digit a = true ∧ is_digit b = true ∧ is_digit c = true ∧ is_digit d = true.
Proof.
  intros Hy. unfold decimal.
  assert (Hfuel : ∃ fuel, Z.to_nat y = S (S (S fuel))).
  { exists (Z.to_nat y - 3)%nat. lia. }
  destruct Hfuel as [fuel ->].
  rewrite !decimal_go_step by (Z.div_mod_to_equations; lia).
  rewrite decimal_go_1 by (try lia; Z.div_mod_to_equations; lia).
  eexists _, _, _, _. split; [reflexivity|].
  by rewrite !is_digit_mod_10.
Qed.

Lemma zfill_2_decimal (n : Z) :
  0 <= n <= 99 →
  ∃ a b, zfill 2 (decimal n) = String a (String b "")
    ∧ is_digit a = true ∧ is_digit b = true.
Proof.
  intros Hn. unfold decimal. destruct (decide (n < 10)) as [Hlt|Hge].
  - rewrite decimal_go_1 by lia.
    exists "0"%char, (digit_char (n mod 10)). split; [reflexivity|].
    by rewrite is_digit_mod_10.
  - assert (Hfuel : ∃ fuel, Z.to_nat n = S fuel).
    { exists (Z.to_nat n - 1)%nat. lia. }
    destruct Hfuel as [fuel ->].
    rewrite decimal_go_step by lia.
    rewrite decimal_go_1 by (try lia; Z.div_mod_to_equations; lia).
    eexists _, _. split; [reflexivity|].
    by rewrite !is_digit_mod_10.
Qed.

(** A valid date prints in the shape YYYY-MM-DD. *)
Lemma strftime_ymd_shape (t : Timestamp) :
  valid_timestamp t → is_ymd_string (strftime_ymd t) = true.
Proof.
  intros (Hy & Hm & Hd).
  pose proof (days_in_month_bounds (ts_year t) (ts_month t)) as Hdim.
  destruct (decimal_four_digits (ts_year t)) as (y1 & y2 & y3 & y4 & Hyear & ? & ? & ? & ?);
    [lia|].
  destruct (zfill_2_decimal (ts_month t)) as (m1 & m2 & Hmonth & ? & ?); [lia|].
  destruct (zfill_2_decimal (ts_day t)) as (d1 & d2 & Hday & ? & ?); [lia|].
  unfold strftime_ymd. rewrite Hyear, Hmonth, Hday.
  unfold is_ymd_string. simpl.
  repeat match goal with H : is_digit _ = true |- _ => rewrite H; clear H end.
  reflexivity.
Qed.

Lemma MonthEnd_valid (lo hi : Timestamp) (k : Z) :
  valid_timestamp lo → valid_timestamp hi →
  month_ord lo <= k <= month_ord hi → valid_timestamp (MonthEnd k).
Proof.
  intros (Hylo & Hmlo & _) (Hyhi & Hmhi & _) Hk.
  pose proof (days_in_month_bounds (k / 12) (k mod 12 + 1)) as Hdim.
  unfold valid_timestamp, calendar_date, month_ord in *. simpl.
  repeat split; try lia; Z.div_mod_to_equations; lia.
Qed.

(** The index of the aggregated series consists of valid dates. *)
Lemma aggregate_sales_index_valid (df : DataFrame) (category region : string) :
  Forall (λ r, valid_timestamp (Order_Date r)) df →
  Forall valid_timestamp (aggregate_sales (Some df) category region).1.*1.
Proof.
  intros Hdf.
  destruct (decide (df_filtered df category region = [])) as [Hnil|Hne].
  { unfold aggregate_sales. rewrite decide_True by done. constructor. }
  rewrite aggregate_sales_resample by done. simpl.
  set (rows := df_filtered df category region) in *.
  assert (Hrows : ∀ r, r ∈ rows → valid_timestamp (Order_Date r)).
  { intros r Hr. unfold rows in Hr. rewrite df_filtered_filter in Hr.
    apply list_elem_of_filter in Hr as [_ Hr]. revert r Hr. by apply Forall_forall. }
  assert (Hidx : (sales_by_date rows).*1 = Order_Date <$> rows).
  { unfold sales_by_date. by rewrite <- list_fmap_compose. }
  assert (Hidx_ne : (sales_by_date rows).*1 ≠ []).
  { rewrite Hidx. by intros ?%fmap_nil_inv. }
  destruct (index_min_spec _ Hidx_ne) as (first & Hmin & Hfirst & _).
  destruct (index_max_spec _ Hidx_ne) as (last & Hmax & Hlast & _).
  rewrite Hidx in Hfirst, Hlast.
  apply list_elem_of_fmap in Hfirst as (earliest & -> & Hearliest%Hrows).
  apply list_elem_of_fmap in Hlast as (latest & -> & Hlatest%Hrows).
  rewrite (resample_ME_sum_index _ _ _ Hmin Hmax).
  rewrite <- list_fmap_compose. apply Forall_fmap, Forall_forall.
  intros k Hk%elem_of_seqZ. simpl.
  apply (MonthEnd_valid (Order_Date earliest) (Order_Date latest)); [done..|lia].
Qed.

Section response_format.
Context `{Models}.

(** C9. In every successful forecast response all dates are strings of
    the shape YYYY-MM-DD: each entry of history.index and the Date of
    each forecast record. *)
Theorem forecast_response_dates_are_ymd_strings (df : DataFrame) (STATUS : string)
    (model_type category region : string) (steps : Z)
    (calls : list call) (status model_used : string)
    (history : HistoryJson) (forecast : list ForecastRecord) :
  Forall (λ r, valid_timestamp (Order_Date r)) df →
  models_valid (aggregate_sales (Some df) category region).1 steps →
  sales_forecast_endpoint (Some df) STATUS model_type category region steps
  = (calls, Return (ForecastDict status model_used history forecast)) →
  status = "success"
  ∧ Forall (λ s, is_ymd_string s = true) (history_index history)
  ∧ Forall (λ r, is_ymd_string (Date r) = true) forecast.
Proof.
  intros Hdf Hmodels Hresp.
  pose proof (aggregate_sales_index_valid df category region Hdf) as Hidx.
  unfold sales_forecast_endpoint in Hresp.
  destruct (aggregate_sales (Some df) category region) as [ts_history data_available].
  unfold mbind, handler_bind, invoke, raise in Hresp. simpl in *.
  destruct data_available; simpl in Hresp; [|discriminate].
  assert (Hframe : ∀ frame st,
            (get_sarima_forecast ts_history steps = (Some frame, st)
             ∨ get_xgboost_forecast ts_history steps = (Some frame, st)) →
            Forall (λ r, is_ymd_string (Date r) = true)
              ((λ e, {| Date := strftime_ymd e.1; values := e.2 |}) <$> frame)).
  { intros frame st Hf. apply Forall_fmap.
    eapply Forall_impl; [exact (Hmodels _ _ Hf)|].
    intros e He. simpl. by apply strftime_ymd_shape. }
  assert (Hhist : Forall (λ s, is_ymd_string s = true) (strftime_ymd <$> ts_history.*1)).
  { apply Forall_fmap. eapply Forall_impl; [exact Hidx|].
    intros t Ht. simpl. by apply strftime_ymd_shape. }
  destruct (decide (model_type = "sarima")); simpl in Hresp.
  - destruct (get_sarima_forecast ts_history steps) as [[frame|] st] eqn:Hf;
      simpl in Hresp; [|discriminate].
    destruct (decide (st ≠ "Success")); simpl in Hresp; [discriminate|].
    injection Hresp as <- <- <- <- <-. simpl. eauto.
  - destruct (decide (model_type = "xgboost")); simpl in Hresp; [|discriminate].
    destruct (get_xgboost_forecast ts_history steps) as [[frame|] st] eqn:Hf;
      simpl in Hresp; [|discriminate].
    destruct (decide (st ≠ "Success")); simpl in Hresp; [discriminate|].
    injection Hresp as <- <- <- <- <-. simpl. eauto.
Qed.
End response_format.

Lemma forecast_response_dates_are_ymd_strings_witness :
  Forall (λ r, valid_timestamp (Order_Date r)) example_df
  ∧ models_valid (H := persistence_models)
      (aggregate_sales (Some example_df) "Furniture" "West").1 2
  ∧ ∃ history forecast,
      sales_forecast_endpoint (H := persistence_models)
        (Some example_df) "Success" "xgboost" "Furniture" "West" 2
      = ([AggregateSales "Furniture" "West"; XgboostForecast 2],
         Return (ForecastDict "success" "xgboost" history forecast))
      ∧ history_index history = ["2019-12-31"; "2020-01-31"; "2020-02-29"; "2020-03-31"]
      ∧ Date <$> forecast = ["2020-04-30"; "2020-05-31"]
      ∧ Forall (λ s, is_ymd_string s = true) (history_index history).
Proof.
  assert (Hdf : Forall (λ r, valid_timestamp (Order_Date r)) example_df)
    by compute_done.
  assert (Hmodels : models_valid (H := persistence_models)
                      (aggregate_sales (Some example_df) "Furniture" "West").1 2).
  { intros frame status [Hf|Hf]; vm_compute in Hf;
      injection Hf as <- <-; compute_done. }
  split; [exact Hdf|]. split; [exact Hmodels|].
  eexists _, _. split; [reflexivity|]. split; [reflexivity|]. split; [reflexivity|].
  eapply (forecast_response_dates_are_ymd_strings (H := persistence_models)
            example_df "Success" "xgboost" "Furniture" "West" 2 _ _ _ _ _ Hdf Hmodels).
  reflexivity.
Defined.

(** ** MAPE *)

Section mape_properties.
Local Open Scope Q_scope.

Lemma mape_terms_skip_zero (a1 a2 p1 p2 : list Q) (a p : Q) :
  length a1 = length p1 → a == 0 →
  mape_terms (a1 ++ a :: a2) (p1 ++ p :: p2) = mape_terms (a1 ++ a2) (p1 ++ p2).
Proof.
  intros Hlen Ha. unfold mape_terms.
  rewrite !zip_with_app by done. simpl.
  rewrite !filter_app, filter_cons_False; [done|].
  simpl. tauto.
Qed.

(** The MAPE of two sequences is the MAPE of what is left of them after
    the positions with a zero actual are taken out. *)
Lemma mape_nonzero_positions (actual predicted : list Q) :
  let kept := filter (λ ap, ¬ ap.1 == 0) (zip actual predicted) in
  mape actual predicted = mape kept.*1 kept.*2.
Proof.
  intros kept. unfold mape, mape_terms.
  rewrite zip_fst_snd. unfold kept. by rewrite filter_twice.
Qed.

(** C4.  The MAPE is the mean of |actual_i - predicted_i| / actual_i, times
    100, over the positions whose actual is not zero: it equals the MAPE
    of the sequences restricted to those positions, and a month whose
    actual is zero can be removed, with its prediction, without changing
    it.  For actual = [0, 100, 200] and predicted = [10, 110, 190] the
    terms are those of positions 1 and 2, |100-110|/100 and |200-190|/200,
    and the MAPE is 7.5. *)
Theorem mape_excludes_zero_actuals (a1 a2 p1 p2 : list Q) (a p : Q) :
  length a1 = length p1 → a == 0 →
  mape (a1 ++ a :: a2) (p1 ++ p :: p2) = mape (a1 ++ a2) (p1 ++ p2)
  ∧ (∀ actual predicted,
       let kept := filter (λ ap, ¬ ap.1 == 0) (zip actual predicted) in
       mape actual predicted = mape kept.*1 kept.*2
       ∧ (kept ≠ [] →
          mape actual predicted
          = Some (Qmean ((λ ap, Qabs (ap.1 - ap.2) / ap.1) <$> kept) * 100)))
  ∧ mape_terms [0; 100; 200] [10; 110; 190]
    = [Qabs (100 - 110) / 100; Qabs (200 - 190) / 200]
  ∧ mape [0; 100; 200] [10; 110; 190] = mape [100; 200] [110; 190]
  ∧ ∃ m, mape [0; 100; 200] [10; 110; 190] = Some m ∧ m == 15 / 2.
Proof.
  intros Hlen Ha. split_and!.
  - unfold mape. by rewrite mape_terms_skip_zero.
  - intros actual predicted kept. split; [apply mape_nonzero_positions|].
    intros Hkept. unfold mape, mape_terms. fold kept.
    rewrite decide_False; [done|]. by intros ?%fmap_nil_inv.
  - reflexivity.
  - reflexivity.
  - eexists. split; reflexivity.
Qed.
End mape_properties.

Lemma mape_excludes_zero_actuals_witness :
  length (@nil Q) = length (@nil Q) ∧ (0 == 0)%Q
  ∧ mape ([] ++ 0%Q :: [100%Q; 200%Q]) ([] ++ 10%Q :: [110%Q; 190%Q])
    = mape ([] ++ [100%Q; 200%Q]) ([] ++ [110%Q; 190%Q]).
Proof.
  split; [reflexivity|]. split; [reflexivity|].
  apply (mape_excludes_zero_actuals [] [100%Q; 200%Q] [] [110%Q; 190%Q] 0%Q 10%Q);
    reflexivity.
Defined.

(** * Further properties of the code *)

(** ** load_data *)

Lemma to_datetime_inr (rows : list ExcelRow) (df : DataFrame) :
  to_datetime rows = inr df ↔ rows = sheet_row <$> df.
Proof.
  revert df. induction rows as [|r rows IH]; intros df; simpl.
  - split; [intros [= <-]; done|]. by intros ->%eq_sym%fmap_nil_inv.
  - destruct r as [[t|msg] s c g]; simpl.
    + destruct (to_datetime rows) as [e|df'] eqn:Hrows.
      * split; [done|]. destruct df as [|r' df]; [done|].
        intros [= -> -> -> -> Hrest]. by apply IH in Hrest.
      * split.
        -- intros [= <-]. simpl. f_equal. by apply IH.
        -- destruct df as [|r' df]; [done|]. destruct r' as [t' s' c' g'].
           intros [= -> -> -> -> Hrest]. apply IH in Hrest.
           injection Hrest as ->. done.
    + split; [done|]. destruct df as [|r' df]; [done|]. discriminate.
Qed.


(** X1. load_data reports "Success" exactly when it returns a table, and
    every failure reason starts with "Error". *)
Theorem load_data_status_matches_table (FILE_NAME : string) (read : read_excel_result) :
  ((load_data FILE_NAME read).2 = "Success" ↔ is_Some (load_data FILE_NAME read).1)
  ∧ ((load_data FILE_NAME read).1 = None →
     ∃ reason, (load_data FILE_NAME read).2 = "Error" +:+ reason).
Proof.
  unfold load_data. destruct (load_data_body read) as [[msg|msg]|df]; simpl.
  - split; [split; [discriminate|by intros [? [=]]]|]. intros _. eexists. reflexivity.
  - split; [split; [discriminate|by intros [? [=]]]|]. intros _. eexists. reflexivity.
  - split; [split; eauto|]. discriminate.
Qed.

(** X2. A table that load_data returns holds exactly the records of the
    sheet, in the sheet's order, with the date cells converted; the sheet
    then has a column whose normalised name is Order_Date. *)
Theorem load_data_keeps_every_record (FILE_NAME : string) (read : read_excel_result)
    (df : DataFrame) :
  (load_data FILE_NAME read).1 = Some df →
  ∃ sheet, read = ReadOk sheet
    ∧ "Order_Date" ∈ normalize_columns (xl_columns sheet)
    ∧ xl_rows sheet = sheet_row <$> df
    ∧ length df = length (xl_rows sheet).
Proof.
  unfold load_data, load_data_body. destruct read as [e|sheet].
  { destruct e; discriminate. }
  case_decide as Hcol; [|discriminate].
  destruct (to_datetime (xl_rows sheet)) as [[msg|msg]|df'] eqn:Hrows; try discriminate.
  intros [= <-]. apply to_datetime_inr in Hrows.
  exists sheet. rewrite Hrows, length_fmap. done.
Qed.


(** ** Column names *)

Lemma str_replace_chars (old new : ascii) (s : string) :
  list_ascii_of_string (str_replace old new s)
  = (λ c, if decide (c = old) then new else c) <$> list_ascii_of_string s.
Proof. induction s as [|c s IH]; simpl; [done|]. by rewrite IH. Qed.

Lemma str_replace_absent (old new : ascii) (s : string) :
  old ∉ list_ascii_of_string s → str_replace old new s = s.
Proof.
  induction s as [|c s IH]; simpl; [done|].
  intros Hs. apply not_elem_of_cons in Hs as [Hc Hs].
  rewrite decide_False by done. by rewrite IH.
Qed.

Lemma str_replace_removes (old new : ascii) (s : string) :
  new ≠ old → old ∉ list_ascii_of_string (str_replace old new s).
Proof.
  intros Hne. rewrite str_replace_chars.
  intros (c & Hc & _)%list_elem_of_fmap. by case_decide.
Qed.

Lemma str_replace_keeps_absent (a old new : ascii) (s : string) :
  a ≠ new → a ∉ list_ascii_of_string s →
  a ∉ list_ascii_of_string (str_replace old new s).
Proof.
  intros Hne Ha. rewrite str_replace_chars.
  intros (c & Hc & Hin)%list_elem_of_fmap. case_decide; congruence.
Qed.

(** X4. Column normalisation keeps the number and order of the columns,
    leaves no space and no hyphen in any name, changes nothing in a name
    that has neither, and is idempotent. *)
Theorem normalize_columns_clean (cols : list string) :
  length (normalize_columns cols) = length cols
  ∧ (∀ c, c ∈ normalize_columns cols → ¬ has_char " " c ∧ ¬ has_char "-" c)
  ∧ (∀ (i : nat) c, cols !! i = Some c → ¬ has_char " " c → ¬ has_char "-" c →
       normalize_columns cols !! i = Some c)
  ∧ normalize_columns (normalize_columns cols) = normalize_columns cols.
Proof.
  assert (Hclean : ∀ c, c ∈ normalize_columns cols →
            ¬ has_char " " c ∧ ¬ has_char "-" c).
  { intros c (c1 & -> & (c0 & -> & _)%list_elem_of_fmap)%list_elem_of_fmap. split.
    - apply str_replace_keeps_absent; [done|]. by apply str_replace_removes.
    - by apply str_replace_removes. }
  split_and!.
  - unfold normalize_columns. by rewrite !length_fmap.
  - exact Hclean.
  - intros i c Hi Hsp Hhy. unfold normalize_columns.
    rewrite !list_lookup_fmap, Hi. simpl.
    by rewrite (str_replace_absent " "), (str_replace_absent "-").
  - unfold normalize_columns at 1.
    rewrite <- list_fmap_compose.
    rewrite <- (list_fmap_id (normalize_columns cols)) at 2.
    apply Forall_fmap_ext_1, Forall_forall. intros c [Hsp Hhy]%Hclean. simpl.
    by rewrite (str_replace_absent " "), (str_replace_absent "-").
Qed.

(** ** aggregate_sales: span, totals, row order *)


(** What aggregate_sales returns when the selection keeps some row. *)
Lemma aggregate_sales_span (df : DataFrame) (category region : string) :
  Forall (λ r, calendar_date (Order_Date r)) df →
  df_filtered df category region ≠ [] →
  ∃ earliest latest,
    let rows := df_filtered df category region in
    let lo := month_ord (Order_Date earliest) in
    let hi := month_ord (Order_Date latest) in
    earliest ∈ rows ∧ latest ∈ rows
    ∧ (∀ r, r ∈ rows → calendar_date (Order_Date r)
                       ∧ lo <= month_ord (Order_Date r) <= hi)
    ∧ aggregate_sales (Some df) category region
      = ((λ k, (MonthEnd k, Some (bin_sum k (sales_by_date rows))))
           <$> seqZ lo (hi - lo + 1), true).
Proof.
  intros Hdf Hne.
  set (rows := df_filtered df category region).
  assert (Hcal : ∀ r, r ∈ rows → calendar_date (Order_Date r)).
  { intros r Hr. unfold rows in Hr. rewrite df_filtered_filter in Hr.
    apply list_elem_of_filter in Hr as [_ Hr]. revert r Hr. by apply Forall_forall. }
  assert (Hidx : (sales_by_date rows).*1 = Order_Date <$> rows).
  { unfold sales_by_date. by rewrite <- list_fmap_compose. }
  assert (Hidx_ne : (sales_by_date rows).*1 ≠ []).
  { rewrite Hidx. by intros ?%fmap_nil_inv. }
  destruct (index_min_spec _ Hidx_ne) as (first & Hmin & Hfirst & Hfirst_le).
  destruct (index_max_spec _ Hidx_ne) as (last & Hmax & Hlast & Hlast_le).
  rewrite Hidx in Hfirst, Hlast.
  apply list_elem_of_fmap in Hfirst as (earliest & -> & Hearliest).
  apply list_elem_of_fmap in Hlast as (latest & -> & Hlatest).
  exists earliest, latest. cbv zeta. fold rows. split_and!; [done..| |].
  - intros r Hr. split; [by apply Hcal|].
    split; apply ts_le_month_ord; try (by apply Hcal).
    + apply Hfirst_le. rewrite Hidx. apply list_elem_of_fmap. eauto.
    + apply Hlast_le. rewrite Hidx. apply list_elem_of_fmap. eauto.
  - rewrite aggregate_sales_resample by done. fold rows.
    by rewrite (resample_ME_sum_index _ _ _ Hmin Hmax).
Qed.

(** X5. On a table of calendar dates the flag tells whether there is data:
    it is True exactly when the series is not empty, and exactly when some
    row of the table satisfies the selection; the number of entries is then
    at least one.  Without a table the result is the empty series and
    False. *)
Theorem aggregate_sales_flag_iff_data (df : DataFrame) (category region : string) :
  Forall (λ r, calendar_date (Order_Date r)) df →
  ((aggregate_sales (Some df) category region).2 = true
   ↔ (aggregate_sales (Some df) category region).1 ≠ [])
  ∧ ((aggregate_sales (Some df) category region).2 = true
     ↔ ∃ r, r ∈ df ∧ selected category region r)
  ∧ aggregate_sales None category region = (empty_series, false).
Proof.
  intros Hdf.
  destruct (decide (df_filtered df category region = [])) as [Hnil|Hne].
  - assert (Hagg : aggregate_sales (Some df) category region = (empty_series, false)).
    { unfold aggregate_sales. by rewrite decide_True. }
    rewrite Hagg. simpl. split_and!; [done| |done].
    split; [done|]. intros (r & Hr & Hsel).
    assert (Hin : r ∈ df_filtered df category region).
    { rewrite df_filtered_filter. by apply list_elem_of_filter. }
    rewrite Hnil in Hin. by apply elem_of_nil in Hin.
  - destruct (aggregate_sales_span df category region Hdf Hne)
      as (earliest & latest & Hearliest & Hlatest & Hrows & Hagg).
    cbv zeta in Hrows. rewrite Hagg. simpl. split_and!; [|split|done].
    + split; [|done]. intros _ Hmap%fmap_nil_inv.
      pose proof (Hrows _ Hearliest) as [_ Hspan].
      rewrite seqZ_cons in Hmap by lia. done.
    + intros _. exists earliest. rewrite df_filtered_filter in Hearliest.
      apply list_elem_of_filter in Hearliest. tauto.
    + done.
Qed.













(** ** create_features_for_ml: the fill, the calendar columns, the lag *)

Section features_more.
Local Open Scope nat_scope.

Lemma bfill_head_lookup (col : list cell) :
  default NaN (head (bfill col)) = default NaN (bfill col !! 0).
Proof. by rewrite head_lookup. Qed.

(** After the fill a cell holds a value exactly when the column has a
    value at or below that cell; it is then the first such value. *)
Lemma bfill_lookup_value (col : list cell) (i : nat) (v : Z) :
  bfill col !! i = Some (Some v) ↔
  ∃ j, i ≤ j ∧ col !! j = Some (Some v) ∧ ∀ k, i ≤ k → k < j → col !! k = Some NaN.
Proof.
  revert i. induction col as [|c col IH]; intros i.
  { simpl. split; [done|]. by intros (j & _ & ? & _). }
  destruct i as [|i].
  - destruct c as [w|]; simpl.
    + split.
      * intros [= ->]. exists 0. split; [lia|]. split; [done|]. intros k ? ?. lia.
      * intros (j & _ & Hj & Hbefore). destruct j as [|j]; [done|].
        specialize (Hbefore 0 ltac:(lia) ltac:(lia)). done.
    + rewrite bfill_head_lookup. split.
      * intros Hv. destruct (bfill col !! 0) as [c0|] eqn:H0; [|done].
        injection Hv as Hv. change (c0 = Some v) in Hv. subst c0.
        apply IH in H0 as (j & _ & Hj & Hbefore).
        exists (S j). split; [lia|]. split; [done|].
        intros [|k] ? ?; [done|]. simpl. apply Hbefore; lia.
      * intros (j & _ & Hj & Hbefore). destruct j as [|j]; [done|]. simpl in Hj.
        assert (H0 : bfill col !! 0 = Some (Some v)).
        { apply IH. exists j. split; [lia|]. split; [done|].
          intros k ? ?. apply (Hbefore (S k)); lia. }
        by rewrite H0.
  - assert (Hstep : bfill (c :: col) !! S i = bfill col !! i) by (by destruct c).
    rewrite Hstep, IH. split.
    + intros (j & Hij & Hj & Hbefore). exists (S j). split; [lia|]. split; [done|].
      intros [|k] ? ?; [lia|]. simpl. apply Hbefore; lia.
    + intros (j & Hij & Hj & Hbefore). destruct j as [|j]; [lia|].
      exists j. split; [lia|]. split; [done|].
      intros k ? ?. apply (Hbefore (S k)); lia.
Qed.

(** A cell is still missing after the fill exactly when nothing at or
    below it is present. *)
Lemma bfill_lookup_NaN (col : list cell) (i : nat) :
  bfill col !! i = Some NaN ↔
  i < length col ∧ ∀ k, i ≤ k → k < length col → col !! k = Some NaN.
Proof.
  revert i. induction col as [|c col IH]; intros i.
  { simpl. split; [done|]. intros [? _]. lia. }
  destruct i as [|i].
  - destruct c as [w|]; simpl.
    + split; [done|]. intros [_ Hall]. specialize (Hall 0 ltac:(lia) ltac:(lia)). done.
    + rewrite bfill_head_lookup. split.
      * intros Hv. split; [lia|]. intros [|k] _ Hk; [done|]. simpl.
        destruct (bfill col !! 0) as [c0|] eqn:H0.
        -- injection Hv as Hv. change (c0 = NaN) in Hv. subst c0.
           apply IH in H0 as [_ Hall]. apply Hall; lia.
        -- apply lookup_ge_None in H0. rewrite length_bfill in H0. lia.
      * intros [_ Hall]. destruct col as [|c1 col]; [done|].
        assert (H0 : bfill (c1 :: col) !! 0 = Some NaN).
        { apply IH. split; [simpl; lia|]. intros k _ Hk.
          apply (Hall (S k)); simpl in *; lia. }
        by rewrite H0.
  - assert (Hstep : bfill (c :: col) !! S i = bfill col !! i) by (by destruct c).
    rewrite Hstep, IH. simpl. split.
    + intros [HiL Hall]. split; [lia|]. intros [|k] ? ?; [lia|]. simpl. apply Hall; lia.
    + intros [HiL Hall]. split; [lia|]. intros k ? ?. apply (Hall (S k)); lia.
Qed.

(** X8. The target column is the series filled backward: y[i] holds a
    value exactly when the series has a value at position i or later, and
    it is the first such value; y[i] is missing exactly when every entry
    from i on is missing.  The length is kept. *)
Theorem create_features_for_ml_target_filled (ts_data : Series) (i : nat) :
  let y := (create_features_for_ml ts_data).2 in
  length y = length ts_data
  ∧ (∀ v, y !! i = Some (Some v) ↔
       ∃ j, i ≤ j ∧ ts_data.*2 !! j = Some (Some v)
            ∧ ∀ k, i ≤ k → k < j → ts_data.*2 !! k = Some NaN)
  ∧ (y !! i = Some NaN ↔
       i < length ts_data
       ∧ ∀ k, i ≤ k → k < length ts_data → ts_data.*2 !! k = Some NaN).
Proof.
  simpl. split_and!.
  - by rewrite length_bfill, length_fmap.
  - intros v. apply bfill_lookup_value.
  - rewrite bfill_lookup_NaN, length_fmap. done.
Qed.

(** X9. For an index of calendar dates the calendar columns are in range
    and agree with each other: the month is 1..12, the quarter 1..4, and
    the month lies in its quarter. *)
Theorem create_features_for_ml_calendar_columns (ts_data : Series) (i : nat) (m q : Z) :
  Forall (λ e, calendar_date e.1) ts_data →
  month (create_features_for_ml ts_data).1 !! i = Some m →
  quarter (create_features_for_ml ts_data).1 !! i = Some q →
  (1 <= m <= 12 ∧ 1 <= q <= 4 ∧ 3 * (q - 1) < m <= 3 * q)%Z.
Proof.
  intros Hts. simpl. rewrite !list_lookup_fmap.
  destruct (ts_data !! i) as [[t v]|] eqn:Hi; [|done]. simpl.
  intros [= <-] [= <-].
  apply (Forall_lookup_1 _ _ _ _ Hts) in Hi as [Hm _]. simpl in Hm.
  unfold quarter_of. Z.div_mod_to_equations. lia.
Qed.

Lemma lag_12_lookup_ge (ts_data : Series) (i : nat) :
  no_missing ts_data → 12 ≤ i → i < length ts_data →
  lag_12 (create_features_for_ml ts_data).1 !! i = ts_data.*2 !! (i - 12).
Proof.
  intros Hts Hi HiL. rewrite lag_12_long by lia.
  rewrite (bfill_present (take _ _)) by (by apply Forall_take, no_missing_values).
  rewrite lookup_app_r by (rewrite length_replicate; lia).
  rewrite length_replicate. apply lookup_take_lt. lia.
Qed.

(** X10. On a series without missing values the lag_12 column is complete
    exactly when the series is empty or has at least 13 entries. *)
Theorem lag_12_complete_iff (ts_data : Series) :
  no_missing ts_data →
  Forall (λ c, c ≠ NaN) (lag_12 (create_features_for_ml ts_data).1)
  ↔ length ts_data = 0 ∨ 13 ≤ length ts_data.
Proof.
  intros Hts. pose proof (no_missing_values _ Hts) as Hvals. split.
  - intros Hlag. destruct (decide (length ts_data = 0)) as [|Hne]; [by left|]. right.
    destruct (decide (13 ≤ length ts_data)) as [|Hshort]; [done|]. exfalso.
    rewrite lag_12_short in Hlag by lia.
    destruct (length ts_data) as [|n]; [done|]. simpl in Hlag.
    by apply Forall_cons in Hlag as [? _].
  - intros [Hnil|Hlong].
    + apply length_zero_iff_nil in Hnil. subst. constructor.
    + rewrite lag_12_long by lia.
      set (rest := take (length ts_data - 12) ts_data.*2).
      assert (Hrest : Forall (λ c, c ≠ NaN) rest) by (by apply Forall_take).
      rewrite (bfill_present rest) by done.
      apply Forall_app. split; [|done].
      apply Forall_replicate.
      destruct rest as [|c rest'] eqn:Hr.
      * exfalso. apply (f_equal length) in Hr. unfold rest in Hr.
        rewrite length_take, length_fmap in Hr. simpl in Hr. lia.
      * simpl. by apply Forall_cons in Hrest as [? _].
Qed.
End features_more.

(** X11. Features of an aggregated series: from the thirteenth month on,
    lag_12 is the total of the same calendar month one year earlier, that
    is the Sales sum of the kept rows of that month. *)
Theorem lag_12_is_same_month_last_year (df : DataFrame) (category region : string)
    (i : nat) (t : Timestamp) :
  Forall (λ r, calendar_date (Order_Date r)) df →
  (12 ≤ i)%nat →
  X_index (create_features_for_ml (aggregate_sales (Some df) category region).1).1 !! i
  = Some t →
  ∃ t' v,
    (aggregate_sales (Some df) category region).1 !! (i - 12)%nat = Some (t', Some v)
    ∧ ts_year t' = ts_year t - 1 ∧ ts_month t' = ts_month t
    ∧ lag_12 (create_features_for_ml (aggregate_sales (Some df) category region).1).1 !! i
      = Some (Some v)
    ∧ v = sum_Z (Sales <$> filter (λ r, same_month (Order_Date r) t')
                             (df_filtered df category region)).
Proof.
  intros Hdf Hi Ht.
  pose proof (aggregate_sales_no_missing (Some df) category region) as Hnm.
  destruct (decide (df_filtered df category region = [])) as [Hnil|Hne].
  { unfold aggregate_sales in Ht. rewrite decide_True in Ht by done. done. }
  destruct (aggregate_sales_span df category region Hdf Hne)
    as (earliest & latest & _ & _ & Hrows & Hagg).
  cbv zeta in Hrows. rewrite Hagg in *. simpl fst in *.
  set (rows := df_filtered df category region) in *.
  set (lo := month_ord (Order_Date earliest)) in *.
  set (n := month_ord (Order_Date latest) - lo + 1) in *.
  set (ts := (λ k, (MonthEnd k, Some (bin_sum k (sales_by_date rows)))) <$> seqZ lo n) in *.
  assert (Hidx : ∀ j : nat, Z.of_nat j < n →
            ts !! j = Some (MonthEnd (lo + Z.of_nat j),
                            Some (bin_sum (lo + Z.of_nat j) (sales_by_date rows)))).
  { intros j Hj. unfold ts. by rewrite list_lookup_fmap, lookup_seqZ_lt. }
  assert (HiL : (i < length ts)%nat).
  { apply lookup_lt_is_Some. change (X_index _) with (ts.*1) in Ht.
    rewrite list_lookup_fmap in Ht. destruct (ts !! i); [eauto|done]. }
  assert (Hn : Z.of_nat i < n).
  { unfold ts in HiL. rewrite length_fmap, length_seqZ in HiL. lia. }
  change (X_index _) with (ts.*1) in Ht.
  rewrite list_lookup_fmap, (Hidx i Hn) in Ht. simpl in Ht. injection Ht as <-.
  exists (MonthEnd (lo + Z.of_nat i - 12)),
         (bin_sum (lo + Z.of_nat i - 12) (sales_by_date rows)).
  assert (Hprev : ts !! (i - 12)%nat
                  = Some (MonthEnd (lo + Z.of_nat i - 12),
                          Some (bin_sum (lo + Z.of_nat i - 12) (sales_by_date rows)))).
  { rewrite (Hidx (i - 12)%nat) by lia.
    by replace (lo + Z.of_nat (i - 12)) with (lo + Z.of_nat i - 12) by lia. }
  split_and!.
  - exact Hprev.
  - simpl. Z.div_mod_to_equations. lia.
  - simpl. Z.div_mod_to_equations. lia.
  - transitivity (ts.*2 !! (i - 12)%nat);
      [exact (lag_12_lookup_ge ts i Hnm Hi HiL)|].
    by rewrite list_lookup_fmap, Hprev.
  - apply bin_sum_sales_by_date, Forall_forall. intros r Hr. by apply Hrows.
Qed.

(** ** Dates on the wire *)

Lemma digit_value_digit_char (d : Z) :
  0 <= d <= 9 → digit_value (digit_char d) = Some d.
Proof.
  intros Hd.
  assert (Hcases : d = 0 ∨ d = 1 ∨ d = 2 ∨ d = 3 ∨ d = 4 ∨ d = 5 ∨ d = 6
                   ∨ d = 7 ∨ d = 8 ∨ d = 9) by lia.
  repeat destruct Hcases as [->|Hcases]; try reflexivity.
  subst. reflexivity.
Qed.

Lemma digit_value_mod_10 (n : Z) : digit_value (digit_char (n mod 10)) = Some (n mod 10).
Proof. apply digit_value_digit_char. Z.div_mod_to_equations. lia. Qed.

Lemma decimal_year_digits (y : Z) :
  1000 <= y <= 9999 →
  decimal y
  = String (digit_char (y / 10 / 10 / 10 mod 10))
      (String (digit_char (y / 10 / 10 mod 10))
         (String (digit_char (y / 10 mod 10)) (String (digit_char (y mod 10)) ""))).
Proof.
  intros Hy. unfold decimal.
  assert (Hfuel : ∃ fuel, Z.to_nat y = S (S (S fuel))).
  { exists (Z.to_nat y - 3)%nat. lia. }
  destruct Hfuel as [fuel ->].
  rewrite !decimal_go_step by (Z.div_mod_to_equations; lia).
  by rewrite decimal_go_1 by (try lia; Z.div_mod_to_equations; lia).
Qed.

Lemma zfill_2_digits (n : Z) :
  0 <= n <= 99 →
  zfill 2 (decimal n)
  = String (digit_char (n / 10 mod 10)) (String (digit_char (n mod 10)) "").
Proof.
  intros Hn. unfold decimal. destruct (decide (n < 10)) as [Hlt|Hge].
  - rewrite decimal_go_1 by lia.
    replace (n / 10 mod 10) with 0 by (Z.div_mod_to_equations; lia). reflexivity.
  - assert (Hfuel : ∃ fuel, Z.to_nat n = S fuel).
    { exists (Z.to_nat n - 1)%nat. lia. }
    destruct Hfuel as [fuel ->].
    rewrite decimal_go_step by lia.
    by rewrite decimal_go_1 by (try lia; Z.div_mod_to_equations; lia).
Qed.

Lemma strftime_ymd_chars (t : Timestamp) :
  valid_timestamp t →
  list_ascii_of_string (strftime_ymd t)
  = [digit_char (ts_year t / 10 / 10 / 10 mod 10); digit_char (ts_year t / 10 / 10 mod 10);
     digit_char (ts_year t / 10 mod 10); digit_char (ts_year t mod 10); "-"%char;
     digit_char (ts_month t / 10 mod 10); digit_char (ts_month t mod 10); "-"%char;
     digit_char (ts_day t / 10 mod 10); digit_char (ts_day t mod 10)].
Proof.
  intros (Hy & Hm & Hd).
  pose proof (days_in_month_bounds (ts_year t) (ts_month t)) as Hdim.
  unfold strftime_ymd.
  rewrite decimal_year_digits, !zfill_2_digits by lia.
  reflexivity.
Qed.

Lemma parse_ymd_strftime_ymd (t : Timestamp) :
  valid_timestamp t → parse_ymd (strftime_ymd t) = Some t.
Proof.
  intros Ht. pose proof Ht as (Hy & Hm & Hd).
  pose proof (days_in_month_bounds (ts_year t) (ts_month t)) as Hdim.
  unfold parse_ymd. rewrite strftime_ymd_chars by done.
  cbv beta iota.
  rewrite (bool_decide_eq_true_2 ("-"%char = "-"%char)) by done.
  cbn [andb]. rewrite !digit_value_mod_10. cbn [mbind option_bind].
  assert (Hyear : (((ts_year t / 10 / 10 / 10 mod 10 * 10 + ts_year t / 10 / 10 mod 10) * 10
                    + ts_year t / 10 mod 10) * 10 + ts_year t mod 10) = ts_year t)
    by (Z.div_mod_to_equations; lia).
  assert (Hmonth : ts_month t / 10 mod 10 * 10 + ts_month t mod 10 = ts_month t)
    by (Z.div_mod_to_equations; lia).
  assert (Hday : ts_day t / 10 mod 10 * 10 + ts_day t mod 10 = ts_day t)
    by (Z.div_mod_to_equations; lia).
  rewrite Hyear, Hmonth, Hday.
  destruct t as [y m d]. cbn [ts_year ts_month ts_day]. by rewrite decide_True.
Qed.

(** X12. A valid date survives the wire: reading back the string that the
    forecast endpoint writes for it gives the same date, so distinct dates
    are written as distinct strings. *)
Theorem strftime_ymd_round_trip (t1 t2 : Timestamp) :
  valid_timestamp t1 → valid_timestamp t2 →
  parse_ymd (strftime_ymd t1) = Some t1
  ∧ (strftime_ymd t1 = strftime_ymd t2 → t1 = t2).
Proof.
  intros H1 H2. split; [by apply parse_ymd_strftime_ymd|].
  intros Heq. apply (f_equal parse_ymd) in Heq.
  rewrite !parse_ymd_strftime_ymd in Heq by done. by injection Heq.
Qed.

(** ** The filter lists *)

Global Instance str_le_total : Total str_le.
Proof. intros a b. apply String.leb_total. Qed.

Lemma sorted_unique_spec (col : list string) :
  Sorted str_le (sorted_unique col)
  ∧ NoDup (sorted_unique col)
  ∧ ∀ c, c ∈ sorted_unique col ↔ c ∈ col.
Proof.
  unfold sorted_unique. split_and!.
  - apply Sorted_merge_sort, _.
  - rewrite merge_sort_Permutation. apply NoDup_remove_dups.
  - intros c. rewrite merge_sort_Permutation. apply elem_of_remove_dups.
Qed.

(** X13. With the dataset loaded, /config/filters answers without calling
    anything; each list starts with its sentinel, followed by the values
    of the column: each value once, in ascending order, none left out and
    none invented. *)
Theorem get_filters_lists (df : DataFrame) (STATUS : string) :
  get_filters (Some df) STATUS
  = ([], Return (FlatDict {[ "categories" := PList (CATEGORIES df);
                             "regions" := PList (REGIONS df) ]}))
  ∧ head (CATEGORIES df) = Some "All Categories"
  ∧ head (REGIONS df) = Some "All Regions"
  ∧ Sorted str_le (tail (CATEGORIES df)) ∧ NoDup (tail (CATEGORIES df))
  ∧ Sorted str_le (tail (REGIONS df)) ∧ NoDup (tail (REGIONS df))
  ∧ (∀ c, c ∈ tail (CATEGORIES df) ↔ ∃ r, r ∈ df ∧ Category r = c)
  ∧ (∀ g, g ∈ tail (REGIONS df) ↔ ∃ r, r ∈ df ∧ Region r = g).
Proof.
  destruct (sorted_unique_spec (Category <$> df)) as (Hcs & Hcn & Hce).
  destruct (sorted_unique_spec (Region <$> df)) as (Hrs & Hrn & Hre).
  split_and!; try done.
  - intros c. simpl. rewrite Hce, list_elem_of_fmap.
    split; [intros (r & -> & Hr)|intros (r & Hr & <-)]; eauto.
  - intros g. simpl. rewrite Hre, list_elem_of_fmap.
    split; [intros (r & -> & Hr)|intros (r & Hr & <-)]; eauto.
Qed.

(** X14. Every option /config/filters offers has data when the other
    selector is left on its sentinel: for a table with at least one row,
    a category of the list with "All Regions", and a region of the list
    with "All Categories", make aggregate_sales return True. *)
Theorem offered_filters_have_data (df : DataFrame) (category region : string) :
  df ≠ [] →
  category ∈ CATEGORIES df → region ∈ REGIONS df →
  (aggregate_sales (Some df) category "All Regions").2 = true
  ∧ (aggregate_sales (Some df) "All Categories" region).2 = true.
Proof.
  intros Hdf Hc Hg.
  assert (Hflag : ∀ c g r, r ∈ df → selected c g r →
            (aggregate_sales (Some df) c g).2 = true).
  { intros c g r Hr Hsel. unfold aggregate_sales. rewrite decide_False; [done|].
    intros Hnil. assert (Hin : r ∈ df_filtered df c g).
    { rewrite df_filtered_filter. by apply list_elem_of_filter. }
    rewrite Hnil in Hin. by apply elem_of_nil in Hin. }
  destruct df as [|r0 df0] eqn:Hdf0; [done|]. rewrite <- Hdf0 in *.
  assert (Hr0 : r0 ∈ df) by (rewrite Hdf0; left).
  destruct (sorted_unique_spec (Category <$> df)) as (_ & _ & Hce).
  destruct (sorted_unique_spec (Region <$> df)) as (_ & _ & Hre).
  split.
  - apply elem_of_cons in Hc as [->|Hc].
    + apply (Hflag _ _ r0 Hr0). split; by left.
    + apply Hce, list_elem_of_fmap in Hc as (r & -> & Hr).
      apply (Hflag _ _ r Hr). split; [by right|by left].
  - apply elem_of_cons in Hg as [->|Hg].
    + apply (Hflag _ _ r0 Hr0). split; by left.
    + apply Hre, list_elem_of_fmap in Hg as (r & -> & Hr).
      apply (Hflag _ _ r Hr). split; [by left|by right].
Qed.

(** ** Outcomes of the forecast and evaluation endpoints *)

Lemma aggregate_sales_flag (df : DataFrame) (category region : string) :
  (aggregate_sales (Some df) category region).2 = true
  ↔ df_filtered df category region ≠ [].
Proof.
  unfold aggregate_sales.
  destruct (decide (df_filtered df category region = [])); simpl; [|done].
  split; [discriminate|done].
Qed.

Section endpoint_outcomes.
Context `{Models}.

(** X15. A successful forecast response comes from the model that was
    asked for, run once, after the aggregation: model_used repeats
    model_type, which is "sarima" or "xgboost"; the history carries the
    aggregated series, one date string per value; and the forecast has one
    record per row of the frame the model returned with status "Success",
    with that row's values. *)
Theorem forecast_success_from_requested_model (DF_RAW : option DataFrame)
    (STATUS model_type category region : string) (steps : Z)
    (calls : list call) (status model_used : string)
    (history : HistoryJson) (forecast : list ForecastRecord) :
  sales_forecast_endpoint DF_RAW STATUS model_type category region steps
  = (calls, Return (ForecastDict status model_used history forecast)) →
  ∃ df frame,
    let ts_history := (aggregate_sales (Some df) category region).1 in
    DF_RAW = Some df
    ∧ df_filtered df category region ≠ []
    ∧ model_used = model_type
    ∧ ((model_type = "sarima"
        ∧ get_sarima_forecast ts_history steps = (Some frame, "Success")
        ∧ calls = [AggregateSales category region; SarimaForecast steps])
       ∨ (model_type = "xgboost"
          ∧ get_xgboost_forecast ts_history steps = (Some frame, "Success")
          ∧ calls = [AggregateSales category region; XgboostForecast steps]))
    ∧ history_data history = ts_history.*2
    ∧ length (history_index history) = length (history_data history)
    ∧ values <$> forecast = frame.*2
    ∧ length forecast = length frame.
Proof.
  intros Hresp. unfold sales_forecast_endpoint in Hresp.
  destruct DF_RAW as [df|]; [|discriminate].
  pose proof (aggregate_sales_flag df category region) as Hflag.
  destruct (aggregate_sales (Some df) category region)
    as [ts_history data_available] eqn:Hagg.
  unfold mbind, handler_bind, invoke, raise in Hresp. simpl in Hresp, Hflag.
  destruct data_available; simpl in Hresp; [|discriminate].
  assert (Hshape : ∀ frame : ForecastFrame,
            values <$> ((λ e, {| Date := strftime_ymd e.1; values := e.2 |}) <$> frame)
            = frame.*2).
  { intros frame. rewrite <- list_fmap_compose. done. }
  destruct (decide (model_type = "sarima")) as [Hs|Hs]; simpl in Hresp.
  - destruct (get_sarima_forecast ts_history steps) as [[frame|] st] eqn:Hf;
      simpl in Hresp; [|discriminate].
    destruct (decide (st ≠ "Success")) as [|Hst]; simpl in Hresp; [discriminate|].
    apply dec_stable in Hst. subst st.
    injection Hresp as <- <- <- <- <-. exists df, frame. cbv zeta.
    rewrite Hagg. simpl. rewrite !length_fmap, Hshape.
    split_and!; try done; [by apply Hflag|auto].
  - destruct (decide (model_type = "xgboost")) as [Hx|Hx]; simpl in Hresp; [|discriminate].
    destruct (get_xgboost_forecast ts_history steps) as [[frame|] st] eqn:Hf;
      simpl in Hresp; [|discriminate].
    destruct (decide (st ≠ "Success")) as [|Hst]; simpl in Hresp; [discriminate|].
    apply dec_stable in Hst. subst st.
    injection Hresp as <- <- <- <- <-. exists df, frame. cbv zeta.
    rewrite Hagg. simpl. rewrite !length_fmap, Hshape.
    split_and!; try done; [by apply Hflag|auto].
Qed.

(** X16. The forecast endpoint raises only two status codes.  500 means
    the dataset is not loaded, and nothing was called.  400 means the
    dataset is loaded and the selection has data, and the detail is either
    the unknown-model message, for a model_type that is neither "sarima"
    nor "xgboost", or "Error en el modelo <model_type>: <status>" with the
    status the model reported.  An empty selection never raises. *)
Theorem forecast_error_codes (DF_RAW : option DataFrame)
    (STATUS model_type category region : string) (steps : Z)
    (calls : list call) (code : Z) (detail : string) :
  sales_forecast_endpoint DF_RAW STATUS model_type category region steps
  = (calls, HTTPException code detail) →
  (code = 500 ∧ DF_RAW = None ∧ calls = []
   ∧ detail = "Error de carga de datos inicial: " +:+ STATUS)
  ∨ (code = 400
     ∧ (∃ df, DF_RAW = Some df ∧ df_filtered df category region ≠ [])
     ∧ ((model_type ≠ "sarima" ∧ model_type ≠ "xgboost"
         ∧ detail = unknown_model_detail
         ∧ calls = [AggregateSales category region])
        ∨ ((model_type = "sarima" ∨ model_type = "xgboost")
           ∧ ∃ status, detail = "Error en el modelo " +:+ model_type +:+ ": " +:+ status))).
Proof.
  intros Hresp. unfold sales_forecast_endpoint in Hresp.
  destruct DF_RAW as [df|].
  2:{ injection Hresp as <- <- <-. by left. }
  right.
  pose proof (aggregate_sales_flag df category region) as Hflag.
  destruct (aggregate_sales (Some df) category region)
    as [ts_history data_available] eqn:Hagg.
  unfold mbind, handler_bind, invoke, raise in Hresp. simpl in Hresp, Hflag.
  destruct data_available; simpl in Hresp; [|discriminate].
  assert (Hdata : true = true) by done.
  destruct (decide (model_type = "sarima")) as [Hs|Hs]; simpl in Hresp.
  - destruct (get_sarima_forecast ts_history steps) as [[frame|] st] eqn:Hf;
      simpl in Hresp.
    + destruct (decide (st ≠ "Success")); simpl in Hresp; [|discriminate].
      injection Hresp as <- <- <-. apply Hflag in Hdata. split_and!; eauto 10.
    + injection Hresp as <- <- <-. apply Hflag in Hdata. split_and!; eauto 10.
  - destruct (decide (model_type = "xgboost")) as [Hx|Hx]; simpl in Hresp.
    + destruct (get_xgboost_forecast ts_history steps) as [[frame|] st] eqn:Hf;
        simpl in Hresp.
      * destruct (decide (st ≠ "Success")); simpl in Hresp; [|discriminate].
        injection Hresp as <- <- <-. apply Hflag in Hdata. split_and!; eauto 10.
      * injection Hresp as <- <- <-. apply Hflag in Hdata. split_and!; eauto 10.
    + injection Hresp as <- <- <-. apply Hflag in Hdata. split_and!; eauto 10.
Qed.

(** X17. What the evaluation endpoint returns is either the "No data
    found" body, for a selection without rows, or the metrics of the
    requested model's backtest over 12 test months, reported with status
    "Success": the same dictionary with model_used set to model_type and no
    other key changed. *)
Theorem evaluation_returns_metrics_of_requested_model (DF_RAW : option DataFrame)
    (STATUS model_type category region : string)
    (calls : list call) (body : json_body) :
  sales_evaluation_endpoint DF_RAW STATUS model_type category region
  = (calls, Return body) →
  ∃ df, DF_RAW = Some df
    ∧ ((df_filtered df category region = []
        ∧ body = no_data_body category region
        ∧ calls = [AggregateSales category region])
       ∨ ∃ metrics d,
           let ts_history := (aggregate_sales (Some df) category region).1 in
           df_filtered df category region ≠ []
           ∧ body = FlatDict d
           ∧ ((model_type = "sarima" ∧ metrics = run_backtest_sarima ts_history 12
               ∧ calls = [AggregateSales category region; BacktestSarima 12])
              ∨ (model_type = "xgboost" ∧ metrics = run_backtest_xgboost ts_history 12
                 ∧ calls = [AggregateSales category region; BacktestXgboost 12]))
           ∧ metrics !! "status" = Some (PStr "Success")
           ∧ d !! "status" = Some (PStr "Success")
           ∧ d !! "model_used" = Some (PStr model_type)
           ∧ ∀ k, k ≠ "model_used" → d !! k = metrics !! k).
Proof.
  intros Hresp. unfold sales_evaluation_endpoint in Hresp.
  destruct DF_RAW as [df|]; [|discriminate]. exists df. split; [done|].
  pose proof (aggregate_sales_flag df category region) as Hflag.
  destruct (aggregate_sales (Some df) category region)
    as [ts_history data_available] eqn:Hagg.
  unfold mbind, handler_bind, invoke, raise in Hresp. simpl in Hresp, Hflag.
  destruct data_available; simpl in Hresp.
  2:{ injection Hresp as <- <-. left. split_and!; try done.
      destruct (decide (df_filtered df category region = [])) as [|Hne]; [done|].
      by apply Hflag in Hne. }
  right. assert (Hne : df_filtered df category region ≠ []) by (by apply Hflag).
  assert (Hdict : ∀ metrics : gmap string pyval,
            metrics !! "status" = Some (PStr "Success") →
            (<["model_used" := PStr model_type]> metrics) !! "status"
              = Some (PStr "Success")
            ∧ (<["model_used" := PStr model_type]> metrics) !! "model_used"
              = Some (PStr model_type)
            ∧ ∀ k, k ≠ "model_used" →
                (<["model_used" := PStr model_type]> metrics) !! k = metrics !! k).
  { intros metrics Hst. split_and!.
    - by rewrite lookup_insert_ne.
    - by rewrite lookup_insert_eq.
    - intros k Hk. by rewrite lookup_insert_ne. }
  destruct (decide (model_type = "sarima")) as [Hs|Hs]; simpl in Hresp.
  - destruct (run_backtest_sarima ts_history 12 !! "status") as [st|] eqn:Hst;
      simpl in Hresp; [|discriminate].
    destruct (decide (st ≠ PStr "Success")) as [|Hok]; simpl in Hresp.
    { destruct (run_backtest_sarima ts_history 12 !! "message") as [[]|]; discriminate. }
    apply dec_stable in Hok. subst st. injection Hresp as <- <-.
    destruct (Hdict _ Hst) as (? & ? & ?).
    eexists _, _. simpl. split_and!; eauto.
  - destruct (decide (model_type = "xgboost")) as [Hx|Hx]; simpl in Hresp; [|discriminate].
    destruct (run_backtest_xgboost ts_history 12 !! "status") as [st|] eqn:Hst;
      simpl in Hresp; [|discriminate].
    destruct (decide (st ≠ PStr "Success")) as [|Hok]; simpl in Hresp.
    { destruct (run_backtest_xgboost ts_history 12 !! "message") as [[]|]; discriminate. }
    apply dec_stable in Hok. subst st. injection Hresp as <- <-.
    destruct (Hdict _ Hst) as (? & ? & ?).
    eexists _, _. simpl. split_and!; eauto.
Qed.
End endpoint_outcomes.

(** ** The dashboard in front of the service *)

Section dashboard.
Context `{Models}.

(** All the ways the forecast endpoint can end. *)
Lemma sales_forecast_endpoint_cases (DF_RAW : option DataFrame)
    (STATUS model_type category region : string) (steps : Z) :
  let o := (sales_forecast_endpoint DF_RAW STATUS model_type category region steps).2 in
  (DF_RAW = None
   ∧ o = HTTPException 500 ("Error de carga de datos inicial: " +:+ STATUS))
  ∨ (∃ df, DF_RAW = Some df ∧ df_filtered df category region = []
           ∧ o = Return (no_data_body category region))
  ∨ (∃ df, DF_RAW = Some df ∧ df_filtered df category region ≠ []
           ∧ ((∃ detail, o = HTTPException 400 detail)
              ∨ ∃ history forecast,
                  o = Return (ForecastDict "success" model_type history forecast))).
Proof.
  unfold sales_forecast_endpoint. destruct DF_RAW as [df|]; [|by left]. right.
  pose proof (aggregate_sales_flag df category region) as Hflag.
  destruct (aggregate_sales (Some df) category region)
    as [ts_history data_available] eqn:Hagg.
  unfold mbind, handler_bind, invoke, raise. simpl in Hflag |- *.
  destruct data_available; simpl.
  2:{ left. exists df. split_and!; try done.
      destruct (decide (df_filtered df category region = [])) as [|Hne]; [done|].
      by apply Hflag in Hne. }
  right. exists df. split; [done|]. split; [by apply Hflag|].
  destruct (decide (model_type = "sarima")); simpl.
  - destruct (get_sarima_forecast ts_history steps) as [[frame|] st]; simpl; [|eauto].
    destruct (decide (st ≠ "Success")); simpl; eauto.
  - destruct (decide (model_type = "xgboost")); simpl; [|eauto].
    destruct (get_xgboost_forecast ts_history steps) as [[frame|] st]; simpl; [|eauto].
    destruct (decide (st ≠ "Success")); simpl; eauto.
Qed.

Lemma no_data_body_status (category region : string) :
  body_truthy (no_data_body category region) = true
  ∧ body_get (no_data_body category region) "status" = Some (PStr "error").
Proof.
  unfold no_data_body, body_truthy, body_get. split.
  - apply bool_decide_eq_true_2, insert_non_empty.
  - apply lookup_insert_eq.
Qed.

(** X18. The dashboard in front of the forecast endpoint: the helper never
    lets an exception escape; a returned body reaches the page unchanged
    and without message, an HTTPException becomes one message carrying the
    endpoint's detail and no response.  The page then shows the no-data
    warning exactly when the dataset is loaded and the selection keeps no
    row, and the forecast exactly when the endpoint returned a forecast;
    every HTTPException ends in the failure message. *)
Theorem dashboard_forecast_branch (DF_RAW : option DataFrame)
    (STATUS model_type category region : string) (steps : Z) :
  let o := (sales_forecast_endpoint DF_RAW STATUS model_type category region steps).2 in
  ∃ events api_response,
    get_forecast_from_api model_type (fastapi_reply o) = Some (events, api_response)
    ∧ (∀ body, o = Return body → events = [] ∧ api_response = Some body)
    ∧ (∀ code detail, o = HTTPException code detail →
         events = [ForecastApiError model_type (PStr detail)]
         ∧ api_response = None
         ∧ forecast_branch api_response = ShowFailure)
    ∧ (forecast_branch api_response = WarnNoData
       ↔ ∃ df, DF_RAW = Some df ∧ df_filtered df category region = [])
    ∧ (forecast_branch api_response = ShowForecast
       ↔ ∃ status model_used history forecast,
           o = Return (ForecastDict status model_used history forecast)).
Proof.
  intros o.
  destruct (sales_forecast_endpoint_cases DF_RAW STATUS model_type category region steps)
    as [[HDF Ho]|[(df & HDF & Hrows & Ho)|(df & HDF & Hrows & [[detail Ho]|(h & f & Ho)])]];
    fold o in Ho; rewrite Ho; simpl.
  - eexists _, _. split; [reflexivity|]. split_and!.
    + discriminate.
    + by intros code detail [= <- <-].
    + split; [discriminate|]. intros (df & Hdf & _). congruence.
    + split; [discriminate|]. intros (? & ? & ? & ? & [=]).
  - destruct (no_data_body_status category region) as [Htruthy Hstatus].
    assert (Hbranch : forecast_branch (Some (no_data_body category region)) = WarnNoData).
    { unfold forecast_branch, status_is. rewrite Htruthy, Hstatus. done. }
    eexists _, _. split; [reflexivity|]. split_and!.
    + by intros body [= <-].
    + discriminate.
    + rewrite Hbranch. split; eauto.
    + rewrite Hbranch. split; [discriminate|]. intros (? & ? & ? & ? & [=]).
  - eexists _, _. split; [reflexivity|]. split_and!.
    + discriminate.
    + by intros code d [= <- <-].
    + split; [discriminate|]. intros (df' & Hdf' & Hnil). congruence.
    + split; [discriminate|]. intros (? & ? & ? & ? & [=]).
  - eexists _, _. split; [reflexivity|]. split_and!.
    + by intros body [= <-].
    + discriminate.
    + split; [discriminate|]. intros (df' & Hdf' & Hnil). congruence.
    + split; [eauto|done].
Qed.

(** X19. The options of the two selectors: whatever happens, the lists the
    dashboard gets start with the sentinels.  With the dataset loaded they
    are the lists of /config/filters, without message; when the service
    could not load its dataset, or cannot be reached, or the request fails
    otherwise, they are the sentinels alone, with one error message. *)
Theorem dashboard_filter_options (DF_RAW : option DataFrame) (STATUS : string)
    (reply : http_reply) :
  reply = ConnectionError ∨ reply = RequestException
  ∨ reply = fastapi_reply (get_filters DF_RAW STATUS).2 →
  ∃ events categories regions,
    get_filters_from_api reply = Some (events, (PList categories, PList regions))
    ∧ head categories = Some "All Categories"
    ∧ head regions = Some "All Regions"
    ∧ (∀ df, DF_RAW = Some df → reply = fastapi_reply (get_filters DF_RAW STATUS).2 →
         events = [] ∧ categories = CATEGORIES df ∧ regions = REGIONS df)
    ∧ (DF_RAW = None ∨ reply = ConnectionError ∨ reply = RequestException →
         length events = 1%nat
         ∧ categories = ["All Categories"] ∧ regions = ["All Regions"]).
Proof.
  intros [-> | [-> | ->]].
  - eexists _, _, _. split; [reflexivity|]. split_and!; try done.
    intros df _ Hreply. by destruct (get_filters DF_RAW STATUS).2.
  - eexists _, _, _. split; [reflexivity|]. split_and!; try done.
    intros df _ Hreply. by destruct (get_filters DF_RAW STATUS).2.
  - destruct DF_RAW as [df|]; simpl.
    + eexists _, _, _. split.
      { unfold body_get. rewrite lookup_insert_eq, lookup_insert_ne by done.
        rewrite lookup_singleton_eq. reflexivity. }
      split_and!; try done.
      * by intros df' [= <-] _.
      * intros [[=]|[[=]|[=]]].
    + eexists _, _, _. split; [reflexivity|]. split_and!; try done.
Qed.


End dashboard.

(** ** The further properties on the reference data *)

Lemma load_data_keeps_every_record_witness :
  (load_data "data/US Superstore data.xls" (ReadOk example_sheet)).1 = Some example_df
  ∧ ∃ sheet, ReadOk example_sheet = ReadOk sheet
      ∧ xl_rows sheet = sheet_row <$> example_df.
Proof.
  assert (Hload : (load_data "data/US Superstore data.xls" (ReadOk example_sheet)).1
                  = Some example_df) by reflexivity.
  split; [exact Hload|].
  destruct (load_data_keeps_every_record _ _ _ Hload) as (sheet & Hread & _ & Hrows & _).
  exists sheet. split; [exact Hread|exact Hrows].
Defined.


Lemma aggregate_sales_flag_iff_data_witness :
  Forall (λ r, calendar_date (Order_Date r)) example_df
  ∧ ((aggregate_sales (Some example_df) "Technology" "West").2 = true
     ↔ (aggregate_sales (Some example_df) "Technology" "West").1 ≠ []).
Proof.
  assert (Hcal : Forall (λ r, calendar_date (Order_Date r)) example_df) by compute_done.
  split; [exact Hcal|].
  exact (proj1 (aggregate_sales_flag_iff_data example_df "Technology" "West" Hcal)).
Defined.



Lemma create_features_for_ml_calendar_columns_witness :
  Forall (λ e, calendar_date e.1) example_series
  ∧ (1 <= 4 <= 12 ∧ 1 <= 2 <= 4 ∧ 3 * (2 - 1) < 4 <= 3 * 2).
Proof.
  assert (Hcal : Forall (λ e : Timestamp * cell, calendar_date e.1) example_series)
    by compute_done.
  split; [exact Hcal|].
  exact (create_features_for_ml_calendar_columns example_series 3 4 2 Hcal eq_refl eq_refl).
Defined.

Lemma lag_12_complete_iff_witness :
  no_missing example_series
  ∧ Forall (λ c, c ≠ NaN) (lag_12 (create_features_for_ml example_series).1).
Proof.
  assert (Hts : no_missing example_series) by (unfold no_missing; compute_done).
  split; [exact Hts|].
  apply (proj2 (lag_12_complete_iff example_series Hts)).
  right. vm_compute. lia.
Defined.

Lemma lag_12_is_same_month_last_year_witness :
  Forall (λ r, calendar_date (Order_Date r)) example_df_long
  ∧ ∃ t' v,
      (aggregate_sales (Some example_df_long) "All Categories" "All Regions").1 !! 0%nat
      = Some (t', Some v)
      ∧ ts_year t' = 2020 - 1 ∧ ts_month t' = 12
      ∧ lag_12 (create_features_for_ml
                  (aggregate_sales (Some example_df_long)
                     "All Categories" "All Regions").1).1 !! 12%nat
        = Some (Some v).
Proof.
  assert (Hcal : Forall (λ r, calendar_date (Order_Date r)) example_df_long)
    by compute_done.
  split; [exact Hcal|].
  destruct (lag_12_is_same_month_last_year example_df_long "All Categories" "All Regions"
              12 (mkTimestamp 2020 12 31) Hcal (le_n 12) eq_refl)
    as (t' & v & Hprev & Hyear & Hmonth & Hlag & _).
  exists t', v. split; [exact Hprev|]. split; [exact Hyear|]. split; [exact Hmonth|].
  exact Hlag.
Defined.

Lemma strftime_ymd_round_trip_witness :
  valid_timestamp (mkTimestamp 2020 2 29) ∧ valid_timestamp (mkTimestamp 2021 2 28)
  ∧ parse_ymd (strftime_ymd (mkTimestamp 2020 2 29)) = Some (mkTimestamp 2020 2 29).
Proof.
  assert (H1 : valid_timestamp (mkTimestamp 2020 2 29)) by compute_done.
  assert (H2 : valid_timestamp (mkTimestamp 2021 2 28)) by compute_done.
  split; [exact H1|]. split; [exact H2|].
  exact (proj1 (strftime_ymd_round_trip _ _ H1 H2)).
Defined.

Lemma offered_filters_have_data_witness :
  example_df ≠ [] ∧ "Technology" ∈ CATEGORIES example_df ∧ "West" ∈ REGIONS example_df
  ∧ (aggregate_sales (Some example_df) "Technology" "All Regions").2 = true
  ∧ (aggregate_sales (Some example_df) "All Categories" "West").2 = true.
Proof.
  assert (Hne : example_df ≠ []) by discriminate.
  assert (Hc : "Technology" ∈ CATEGORIES example_df) by compute_done.
  assert (Hg : "West" ∈ REGIONS example_df) by compute_done.
  split; [exact Hne|]. split; [exact Hc|]. split; [exact Hg|].
  exact (offered_filters_have_data example_df "Technology" "West" Hne Hc Hg).
Defined.

Lemma forecast_success_from_requested_model_witness :
  ∃ calls status model_used history forecast,
    sales_forecast_endpoint (H := persistence_models)
      (Some example_df) "Success" "xgboost" "Furniture" "West" 2
    = (calls, Return (ForecastDict status model_used history forecast))
    ∧ model_used = "xgboost"
    ∧ length forecast = 2%nat.
Proof.
  eexists _, _, _, _, _. split; [reflexivity|].
  destruct (forecast_success_from_requested_model (H := persistence_models)
              (Some example_df) "Success" "xgboost" "Furniture" "West" 2 _ _ _ _ _ eq_refl)
    as (df & frame & _ & _ & Hused & _).
  split; [exact Hused|reflexivity].
Defined.

Lemma forecast_error_codes_witness :
  sales_forecast_endpoint (H := persistence_models)
    (Some example_df) "Success" "bogus" "Furniture" "West" 12
  = ([AggregateSales "Furniture" "West"], HTTPException 400 unknown_model_detail)
  ∧ ∃ df, Some example_df = Some df ∧ df_filtered df "Furniture" "West" ≠ [].
Proof.
  split; [reflexivity|].
  destruct (forecast_error_codes (H := persistence_models)
              (Some example_df) "Success" "bogus" "Furniture" "West" 12 _ _ _ eq_refl)
    as [(Hcode & _)|(_ & Hdata & _)]; [discriminate Hcode|exact Hdata].
Defined.

Lemma evaluation_returns_metrics_of_requested_model_witness :
  ∃ calls body,
    sales_evaluation_endpoint (H := persistence_models)
      (Some example_df_long) "Success" "sarima" "All Categories" "All Regions"
    = (calls, Return body)
    ∧ body_get body "model_used" = Some (PStr "sarima")
    ∧ ∃ df, Some example_df_long = Some df.
Proof.
  eexists _, _. split; [reflexivity|]. split; [reflexivity|].
  destruct (evaluation_returns_metrics_of_requested_model (H := persistence_models)
              (Some example_df_long) "Success" "sarima" "All Categories" "All Regions"
              _ _ eq_refl)
    as (df & Hdf & _).
  exists df. exact Hdf.
Defined.

Lemma dashboard_filter_options_witness :
  ∃ events categories regions,
    get_filters_from_api ConnectionError
    = Some (events, (PList categories, PList regions))
    ∧ head categories = Some "All Categories"
    ∧ head regions = Some "All Regions".
Proof.
  destruct (dashboard_filter_options (Some example_df) "Success" ConnectionError
              (or_introl eq_refl))
    as (events & categories & regions & Hget & Hc & Hg & _).
  exists events, categories, regions. split; [exact Hget|]. split; [exact Hc|exact Hg].
Defined.
